(** * MindLab Health: authentication, RBAC and appointment handlers

    A shallow embedding of [auth.py], [models.py], [rbac_decorators.py] and
    of the request handlers of [07_main_fixed4.py] that register users,
    resolve tokens, and create, cancel and toggle records.

    Python values are modelled as the interpreter has them: a [str] is a
    sequence of Unicode code points, [bytes] a sequence of octets, a
    [datetime] a count of microseconds, a [dict] a finite map.  A Python
    function that may raise returns an [outcome]; a request handler runs in
    the monad [M], which threads the committed database and the log. *)

From Stdlib Require Import ZArith NArith List String Ascii Bool Lia.
From stdpp Require Import base option list gmap countable.

Local Open Scope Z_scope.

(** ** Python values *)

(** A code point, and Python's [str] and [bytes]. *)
Definition char := N.
Definition str := list N.
Definition bytes := list N.

(** A [str] literal of the source, written with ASCII characters. *)
Definition py (s : string) : str :=
  List.map N_of_ascii (list_ascii_of_string s).
Arguments py s%_string.

(** [datetime] and [timedelta]: microseconds (since the epoch). *)
Definition datetime := Z.
Definition timedelta := Z.
Definition minutes (n : Z) : timedelta := n * 60 * 1000000.

(** The values the handlers put in a [dict]. *)
Inductive pyval :=
| PNone
| PBool (b : bool)
| PInt (z : Z)
| PStr (s : str)
| PDatetime (d : datetime).

#[global] Instance pyval_eq_dec : EqDecision pyval.
Proof. solve_decision. Defined.

(** Python's truth value of an object. *)
Definition truthy (v : pyval) : bool :=
  match v with
  | PNone => false
  | PBool b => b
  | PInt z => negb (z =? 0)
  | PStr s => negb (bool_decide (s = []))
  | PDatetime _ => true
  end.

(** An optional value as Python has it: the value, or [None]. *)
Definition of_option {A} (f : A -> pyval) (o : option A) : pyval :=
  match o with
  | Some a => f a
  | None => PNone
  end.

(** Exceptions, all subclasses of [Exception]. [HttpError] is the Google
    client's; [LibraryError] stands for whatever else a collaborator
    raises. *)
Inductive exn :=
| HTTPException (status_code : Z) (detail : str)
| UnicodeEncodeError
| UnicodeDecodeError
| JWTError
| HttpError
| LibraryError (what : string).

Inductive outcome (A : Type) :=
| Return (a : A)
| Raise (e : exn).
Arguments Return {A} a.
Arguments Raise {A} e.

#[global] Instance outcome_ret : MRet outcome := @Return.
#[global] Instance outcome_bind : MBind outcome := fun A B f m =>
  match m with
  | Return a => f a
  | Raise e => Raise e
  end.

(** *** UTF-8 *)

Definition continuation (b : N) : bool := ((0x80 <=? b) && (b <=? 0xBF))%N.

(** One code point as [str.encode('utf-8')] writes it; a lone surrogate
    cannot be encoded. *)
Definition utf8_encode_char (c : char) : outcome bytes :=
  (if c <? 0x80 then Return [c]
   else if c <? 0x800 then
     Return [0xC0 + c / 0x40; 0x80 + c mod 0x40]
   else if (0xD800 <=? c) && (c <=? 0xDFFF) then Raise UnicodeEncodeError
   else if c <? 0x10000 then
     Return [0xE0 + c / 0x1000; 0x80 + (c / 0x40) mod 0x40; 0x80 + c mod 0x40]
   else if c <=? 0x10FFFF then
     Return [0xF0 + c / 0x40000; 0x80 + (c / 0x1000) mod 0x40;
             0x80 + (c / 0x40) mod 0x40; 0x80 + c mod 0x40]
   else Raise UnicodeEncodeError)%N.

Fixpoint utf8_encode (s : str) : outcome bytes :=
  match s with
  | [] => Return []
  | c :: s' =>
      b ← utf8_encode_char c;
      bs ← utf8_encode s';
      Return (b ++ bs)
  end.

(** [bytes.decode('utf-8')], strict. *)
Fixpoint utf8_decode (bs : bytes) : outcome str :=
  match bs with
  | [] => Return []
  | b0 :: r0 =>
      if (b0 <? 0x80)%N then s ← utf8_decode r0; Return (b0 :: s)
      else if ((0xC2 <=? b0) && (b0 <=? 0xDF))%N then
        match r0 with
        | b1 :: r1 =>
            if continuation b1
            then s ← utf8_decode r1;
                 Return (((b0 - 0xC0) * 0x40 + (b1 - 0x80))%N :: s)
            else Raise UnicodeDecodeError
        | _ => Raise UnicodeDecodeError
        end
      else if ((0xE0 <=? b0) && (b0 <=? 0xEF))%N then
        match r0 with
        | b1 :: b2 :: r2 =>
            if continuation b1 && continuation b2
               && (negb (b0 =? 0xE0) || (0xA0 <=? b1))%N
               && (negb (b0 =? 0xED) || (b1 <=? 0x9F))%N
            then s ← utf8_decode r2;
                 Return (((b0 - 0xE0) * 0x1000 + (b1 - 0x80) * 0x40
                          + (b2 - 0x80))%N :: s)
            else Raise UnicodeDecodeError
        | _ => Raise UnicodeDecodeError
        end
      else if ((0xF0 <=? b0) && (b0 <=? 0xF4))%N then
        match r0 with
        | b1 :: b2 :: b3 :: r3 =>
            if continuation b1 && continuation b2 && continuation b3
               && (negb (b0 =? 0xF0) || (0x90 <=? b1))%N
               && (negb (b0 =? 0xF4) || (b1 <=? 0x8F))%N
            then s ← utf8_decode r3;
                 Return (((b0 - 0xF0) * 0x40000 + (b1 - 0x80) * 0x1000
                          + (b2 - 0x80) * 0x40 + (b3 - 0x80))%N :: s)
            else Raise UnicodeDecodeError
        | _ => Raise UnicodeDecodeError
        end
      else Raise UnicodeDecodeError
  end.

(** One line written by [print] or by the [logging] module: the level and
    the pieces of the f-string. *)
Inductive level := PRINT | INFO | WARNING | ERROR.
Inductive piece :=
| Lit (s : string)
| Val (v : pyval)
| Exc (e : exn).
Definition log_record : Type := level * list piece.

(** ** Collaborators *)

(** The Unicode character tables behind [str.isalpha] and the like. *)
Class Unicode := {
  isalpha : char -> bool;
  isalnum : char -> bool;
  isupper : char -> bool;
  islower : char -> bool;
  isdigit : char -> bool;
}.

(** The [bcrypt] package: [hashpw password salt] and [checkpw password
    hashed]; either may raise (on an invalid salt, for instance).  The salt
    is what [bcrypt.gensalt()] drew. *)
Class Bcrypt := {
  hashpw : bytes -> bytes -> outcome bytes;
  checkpw : bytes -> bytes -> outcome bool;
}.

(** The [python-jose] package, as far as [auth.py] uses it: HS256 tokens
    carrying the registered claims [exp] and [sub].  [hs256 key payload] is
    the HMAC of the serialised header and payload. *)
Class Hs256 := {
  hs256 : str -> gmap str pyval -> N;
}.

(** What [create_appointment] uses of the object [calendar_service]: its
    [enabled] flag and [create_event], which answers an event id or [None],
    or raises, and may have logged. *)
Class Calendar := {
  enabled : bool;
  create_event : gmap str pyval -> outcome (option str) * list log_record;
}.

(** The Google API client held in [self.service], seen from the [try]
    block of [GoogleCalendarService.create_event]: building the event from
    the appointment data and [events().insert(...).execute()] answer the
    [id] of the created event, or raise. *)
Class GoogleApi := {
  insert_event : gmap str pyval -> outcome (option str);
}.

(** ** google_calendar_service.py *)

Module GoogleCalendarService.

(** The attributes [enabled] and [service] (set or [None]). *)
Record t := {
  enabled : bool;
  service : bool;
}.

Definition create_event `{GoogleApi} (self : t)
    (appointment_data : gmap str pyval) : outcome (option str) * list log_record :=
  if negb (enabled self) || negb (service self) then
    (Return None, [(WARNING, [Lit "Google Calendar service not available"])])
  else
    match insert_event appointment_data with
    | Return id =>
        (Return id,
         [(INFO, [Lit "Google Calendar event created: "; Val (of_option PStr id)])])
    | Raise HttpError =>
        (Return None, [(ERROR, [Lit "Google Calendar API error: "; Exc HttpError])])
    | Raise e =>
        (Return None, [(ERROR, [Lit "Error creating calendar event: "; Exc e])])
    end.

End GoogleCalendarService.

(** [calendar_service = GoogleCalendarService()] as the handlers see it. *)
Definition calendar_service `{GoogleApi} (self : GoogleCalendarService.t)
    : Calendar := {|
  enabled := GoogleCalendarService.enabled self;
  create_event := GoogleCalendarService.create_event self;
|}.

(** ** models.py *)

Module Permission.
Record t := {
  id : Z;
  name : str;
  description : option str;
  module : str;
  action : str;
  created_at : option datetime;
}.
End Permission.

Module RolePermission.
Record t := {
  id : Z;
  role : str;
  permission_id : Z;
  created_at : option datetime;
}.
End RolePermission.

Module User.
Record t := {
  id : Z;
  username : str;
  email : str;
  hashed_password : str;
  role : str;
  created_at : option datetime;
}.
#[global] Instance eq_dec : EqDecision t.
Proof. solve_decision. Defined.
End User.

Module Appointment.
Record t := {
  id : Z;
  user_id : Z;
  therapist_id : Z;
  appointment_datetime : datetime;
  duration_minutes : Z;
  status : str;
  notes : option str;
  google_calendar_event_id : option str;
  sync_with_calendar : bool;
  last_calendar_sync : option datetime;
  appointment_type : option str;
  location : option str;
  reminder_sent : bool;
  created_at : option datetime;
  updated_at : option datetime;
}.
#[global] Instance eq_dec : EqDecision t.
Proof. solve_decision. Defined.
End Appointment.

(** ** The database session *)

(** The committed tables, in storage order, with the sequences behind the
    autoincremented primary keys. *)
Record Db := {
  users : list User.t;
  permissions : list Permission.t;
  role_permissions : list RolePermission.t;
  appointments : list Appointment.t;
  users_seq : Z;
  appointments_seq : Z;
}.

(** What a request can change: the database and the log. *)
Record World := {
  db : Db;
  log : list log_record;
}.

(** A request handler: it ends by returning or by raising, and either way
    leaves a world behind. *)
Definition M (A : Type) : Type := World -> outcome A * World.

Definition ret {A} (a : A) : M A := fun w => (Return a, w).
Definition raise {A} (e : exn) : M A := fun w => (Raise e, w).
Definition bind {A B} (m : M A) (k : A -> M B) : M B := fun w =>
  match m w with
  | (Return a, w') => k a w'
  | (Raise e, w') => (Raise e, w')
  end.
Definition lift {A} (o : outcome A) : M A := fun w => (o, w).
Definition get_db : M Db := fun w => (Return (db w), w).
Definition put_db (d : Db) : M unit := fun w =>
  (Return tt, {| db := d; log := log w |}).
Definition logger (l : level) (text : list piece) : M unit := fun w =>
  (Return tt, {| db := db w; log := log w ++ [(l, text)] |}).

(** A call that prints or logs: its lines join the log. *)
Definition printing {A} (call : outcome A * list log_record) : M A := fun w =>
  (fst call, {| db := db w; log := log w ++ snd call |}).

(** [try: body / except Exception as e: handler e] inside a handler: what
    the body did before it raised stays done. *)
Definition try_except {A} (body : M A) (handler : exn -> M A) : M A := fun w =>
  match body w with
  | (Return a, w') => (Return a, w')
  | (Raise e, w') => handler e w'
  end.

Notation "'do' x <- m ; k" := (bind m (fun x => k))
  (at level 10, x name, m at level 100, k at level 200).
Notation "'do' ' p <- m ; k" := (bind m (fun x => match x with p => k end))
  (at level 10, p pattern, m at level 100, k at level 200).
Notation "m ;; k" := (bind m (fun _ => k))
  (at level 100, k at level 200, right associativity).

(** [db.query(T).filter(p).first()]. *)
Definition first {A} (p : A -> bool) (rows : list A) : option A := List.find p rows.

(** [db.add(row); db.commit(); db.refresh(row)] for a new [User]: the
    sequence gives the primary key, the column default the timestamp. *)
Definition add_user (username email hashed_password role : str)
    (now : datetime) : M User.t :=
  do d <- get_db;
  let row := {| User.id := users_seq d + 1; User.username := username;
                User.email := email; User.hashed_password := hashed_password;
                User.role := role; User.created_at := Some now |} in
  put_db {| users := users d ++ [row]; permissions := permissions d;
            role_permissions := role_permissions d;
            appointments := appointments d;
            users_seq := users_seq d + 1;
            appointments_seq := appointments_seq d |};;
  ret row.

(** The same for a new [Appointment]; [mk] builds the row from its key. *)
Definition add_appointment (mk : Z -> Appointment.t) : M Appointment.t :=
  do d <- get_db;
  let row := mk (appointments_seq d + 1) in
  put_db {| users := users d; permissions := permissions d;
            role_permissions := role_permissions d;
            appointments := appointments d ++ [row];
            users_seq := users_seq d;
            appointments_seq := appointments_seq d + 1 |};;
  ret row.

(** [onupdate=datetime.utcnow] of [Appointment.updated_at]. *)
Definition touch (a : Appointment.t) (now : datetime) : Appointment.t :=
  {| Appointment.id := Appointment.id a;
     Appointment.user_id := Appointment.user_id a;
     Appointment.therapist_id := Appointment.therapist_id a;
     Appointment.appointment_datetime := Appointment.appointment_datetime a;
     Appointment.duration_minutes := Appointment.duration_minutes a;
     Appointment.status := Appointment.status a;
     Appointment.notes := Appointment.notes a;
     Appointment.google_calendar_event_id := Appointment.google_calendar_event_id a;
     Appointment.sync_with_calendar := Appointment.sync_with_calendar a;
     Appointment.last_calendar_sync := Appointment.last_calendar_sync a;
     Appointment.appointment_type := Appointment.appointment_type a;
     Appointment.location := Appointment.location a;
     Appointment.reminder_sent := Appointment.reminder_sent a;
     Appointment.created_at := Appointment.created_at a;
     Appointment.updated_at := Some now |}.

(** [db.commit()] with a loaded [Appointment] in the session: when one of
    its columns differs from what was loaded, the row with its key is
    rewritten and [updated_at] refreshed; otherwise nothing is sent. *)
Definition commit_appointment (loaded current : Appointment.t)
    (now : datetime) : M Appointment.t :=
  if bool_decide (current = loaded) then ret current
  else
    do d <- get_db;
    let row := touch current now in
    put_db {| users := users d; permissions := permissions d;
              role_permissions := role_permissions d;
              appointments :=
                List.map (fun r => if bool_decide (Appointment.id r = Appointment.id loaded)
                                   then row else r) (appointments d);
              users_seq := users_seq d;
              appointments_seq := appointments_seq d |};;
    ret row.

(** A loaded [User] object: its mapped columns, and the instance
    [__dict__] entries that are not columns. *)
Record UserObject := {
  columns : User.t;
  instance_dict : gmap str pyval;
}.

(** [db.commit()] with a loaded [User] in the session: only mapped columns
    are written back. *)
Definition commit_user (loaded : User.t) (current : UserObject) : M unit :=
  if bool_decide (columns current = loaded) then ret tt
  else
    do d <- get_db;
    put_db {| users :=
                List.map (fun r => if bool_decide (User.id r = User.id loaded)
                                   then columns current else r) (users d);
              permissions := permissions d;
              role_permissions := role_permissions d;
              appointments := appointments d;
              users_seq := users_seq d;
              appointments_seq := appointments_seq d |}.

(** ** python-jose *)

Module jwt.

(** A token string: either it does not parse as a signed token, or it does
    and carries a payload and a signature. *)
Inductive token :=
| NotAToken (s : str)
| Jws (payload : gmap str pyval) (signature : N).

(** [timegm(d.utctimetuple())]: the whole seconds of a [datetime]. *)
Definition timegm (d : datetime) : Z := d / 1000000.

Definition to_numeric_date (v : pyval) : pyval :=
  match v with
  | PDatetime d => PInt (timegm d)
  | _ => v
  end.

Section WithHs256.
Context `{Hs256}.

(** [jwt.encode(claims, key, algorithm="HS256")]: a [datetime] under
    [exp], [iat] or [nbf] is stored as its whole seconds. *)
Definition encode (claims : gmap str pyval) (key : str) : token :=
  let payload :=
    alter to_numeric_date (py "exp")
      (alter to_numeric_date (py "iat")
         (alter to_numeric_date (py "nbf") claims)) in
  Jws payload (hs256 key payload).

(** [jwt.decode(token, key, algorithms=["HS256"])] read at the instant
    [now]: the signature is checked, then [exp] (expired when it is below
    the clock's whole seconds) and [sub] (a string when present).  Every
    failure is a [JWTError]. *)
Definition decode (tok : token) (key : str) (now : datetime)
    : outcome (gmap str pyval) :=
  match tok with
  | NotAToken _ => Raise JWTError
  | Jws payload signature =>
      if negb (signature =? hs256 key payload)%N then Raise JWTError
      else
        match payload !! py "exp" with
        | Some (PInt exp) =>
            if exp <? timegm now then Raise JWTError
            else
              match payload !! py "sub" with
              | None | Some (PStr _) => Return payload
              | Some _ => Raise JWTError
              end
        | Some _ => Raise JWTError
        | None =>
            match payload !! py "sub" with
            | None | Some (PStr _) => Return payload
            | Some _ => Raise JWTError
            end
        end
  end.

End WithHs256.
End jwt.

(** ** auth.py *)

Module auth.

Definition ACCESS_TOKEN_EXPIRE_MINUTES : Z := 30.

(** [hashed_password] is annotated [str]; the body encodes a [str] and
    hands anything else to [bcrypt.checkpw] as it is, which raises a
    [TypeError] on what is not [bytes]. *)
Inductive str_or_bytes :=
| IsStr (s : str)
| IsBytes (b : bytes)
| IsOther (v : pyval).

(** [password_bytes = password.encode('utf-8')] followed by the truncation
    to 72 bytes shared by [verify_password] and [get_password_hash]. *)
Definition truncate_72 (password_bytes : bytes) : bytes :=
  if bool_decide (72 < length password_bytes)%nat
  then take 72 password_bytes
  else password_bytes.

Section WithBcrypt.
Context `{Bcrypt}.

(** The body of the [try] block of [verify_password]. *)
Definition verify_password_try (plain_password : str)
    (hashed_password : str_or_bytes) : outcome bool :=
  password_bytes ← utf8_encode plain_password;
  let password_bytes := truncate_72 password_bytes in
  hash_bytes ← match hashed_password with
               | IsStr s => utf8_encode s
               | IsBytes b => Return b
               | IsOther _ => Raise (LibraryError "TypeError")
               end;
  checkpw password_bytes hash_bytes.

(** [verify_password]: its result together with the lines it prints. *)
Definition verify_password (plain_password : str)
    (hashed_password : str_or_bytes) : outcome bool * list log_record :=
  match verify_password_try plain_password hashed_password with
  | Return b => (Return b, [])
  | Raise e => (Return false, [(PRINT, [Lit "Password verification error: "; Exc e])])
  end.

Definition get_password_hash (password : str) (salt : bytes) : outcome str :=
  password_bytes ← utf8_encode password;
  let password_bytes := truncate_72 password_bytes in
  hashed ← hashpw password_bytes salt;
  utf8_decode hashed.

End WithBcrypt.

Section WithUnicode.
Context `{Unicode}.

Definition validate_password_strength (password : str) : bool * str :=
  if bool_decide (length password < 8)%nat then
    (false, py "Password must be at least 8 characters long")
  else if bool_decide (72 < length password)%nat then
    (false, py "Password must not exceed 72 characters")
  else
    let has_upper := existsb isupper password in
    let has_lower := existsb islower password in
    let has_digit := existsb isdigit password in
    if negb (has_upper && has_lower && has_digit) then
      (false, py "Password must contain uppercase, lowercase, and numbers")
    else (true, py "").

Definition validate_username (username : str) : bool * str :=
  if bool_decide (length username < 3)%nat then
    (false, py "Username must be at least 3 characters long")
  else if bool_decide (50 < length username)%nat then
    (false, py "Username must not exceed 50 characters")
  else if negb (match username with c :: _ => isalpha c | [] => false end) then
    (false, py "Username must start with a letter")
  else if negb (forallb (fun c => isalnum c || bool_decide (c ∈ py "_-")) username) then
    (false, py "Username can only contain letters, numbers, underscore, and hyphen")
  else (true, py "").

End WithUnicode.

Record TokenData := {
  username : option str;
}.

Section WithJose.
Context `{Hs256} (SECRET_KEY : str).

(** [create_access_token(data, expires_delta)] called at the instant
    [now]. A zero [timedelta] is false, like [None]. *)
Definition create_access_token (data : gmap str pyval)
    (expires_delta : option timedelta) (now : datetime) : jwt.token :=
  let to_encode := data in
  let expire :=
    match expires_delta with
    | Some delta =>
        if negb (delta =? 0) then now + delta
        else now + minutes ACCESS_TOKEN_EXPIRE_MINUTES
    | None => now + minutes ACCESS_TOKEN_EXPIRE_MINUTES
    end in
  let to_encode := <[py "exp" := PDatetime expire]> to_encode in
  jwt.encode to_encode SECRET_KEY.

(** [decode_access_token(token)] called at the instant [now]. *)
Definition decode_access_token (token : jwt.token) (now : datetime)
    : outcome (option TokenData) :=
  match jwt.decode token SECRET_KEY now with
  | Return payload =>
      match payload !! py "sub" with
      | None | Some PNone => Return None
      | Some (PStr username) => Return (Some {| username := Some username |})
      | Some _ => Raise (LibraryError "pydantic.ValidationError")
      end
  | Raise JWTError => Return None
  | Raise e => Raise e
  end.

Definition credentials_exception : exn :=
  HTTPException 401 (py "Could not validate credentials").

Definition get_current_user (token : jwt.token) (now : datetime) : M User.t :=
  do token_data <- lift (decode_access_token token now);
  match token_data with
  | None => raise credentials_exception
  | Some token_data =>
      match username token_data with
      | None => raise credentials_exception
      | Some name =>
          do d <- get_db;
          match first (fun u => bool_decide (User.username u = name)) (users d) with
          | None => raise credentials_exception
          | Some user => ret user
          end
      end
  end.

End WithJose.

End auth.

(** ** models.py: the methods of [User] *)

(** [Permission] joined with [RolePermission] on the foreign key. *)
Definition permission_join (db_session : Db)
    : list (Permission.t * RolePermission.t) :=
  flat_map (fun p =>
    flat_map (fun rp =>
      if bool_decide (RolePermission.permission_id rp = Permission.id p)
      then [(p, rp)] else [])
      (role_permissions db_session))
    (permissions db_session).

Definition has_permission (self : User.t) (permission_name : str)
    (db_session : Db) : bool :=
  if bool_decide (User.role self = py "admin") then true
  else
    let result :=
      first (fun '(p, rp) =>
               bool_decide (RolePermission.role rp = User.role self)
               && bool_decide (Permission.name p = permission_name))
            (permission_join db_session) in
    match result with
    | Some _ => true
    | None => false
    end.

(** ** rbac_decorators.py *)

Definition can_access_appointment (current_user : User.t)
    (appointment_id : Z) (d : Db) : bool :=
  let appointment :=
    first (fun a => bool_decide (Appointment.id a = appointment_id))
          (appointments d) in
  match appointment with
  | None => false
  | Some appointment =>
      if bool_decide (User.role current_user = py "admin") then true
      else if bool_decide (Appointment.user_id appointment = User.id current_user)
              || bool_decide (Appointment.therapist_id appointment = User.id current_user)
      then true
      else false
  end.

(** ** 07_main_fixed4.py *)

(** The request bodies (Pydantic schemas). *)
Module UserCreate.
Record t := {
  username : str;
  email : str;
  password : str;
  role : str;
}.
End UserCreate.

Module AppointmentCreate.
Record t := {
  therapist_id : Z;
  appointment_datetime : datetime;
  duration_minutes : option Z;
  appointment_type : option str;
  location : option str;
  notes : option str;
  sync_with_calendar : option bool;
}.
End AppointmentCreate.

(** Python's truth value of a pair: a tuple that is not empty is true. *)
Definition tuple_truthy {A B} (t : A * B) : bool := true.

(** The mapped columns of [User]; assigning any other attribute of a loaded
    object only fills its instance [__dict__]. *)
Definition User_columns : list str :=
  [py "id"; py "username"; py "email"; py "hashed_password"; py "role";
   py "created_at"].

Definition set_instance_attribute (o : UserObject) (name : str) (v : pyval)
    : UserObject :=
  {| columns := columns o; instance_dict := <[name := v]> (instance_dict o) |}.

Definition set_status (a : Appointment.t) (status : str) : Appointment.t :=
  {| Appointment.id := Appointment.id a;
     Appointment.user_id := Appointment.user_id a;
     Appointment.therapist_id := Appointment.therapist_id a;
     Appointment.appointment_datetime := Appointment.appointment_datetime a;
     Appointment.duration_minutes := Appointment.duration_minutes a;
     Appointment.status := status;
     Appointment.notes := Appointment.notes a;
     Appointment.google_calendar_event_id := Appointment.google_calendar_event_id a;
     Appointment.sync_with_calendar := Appointment.sync_with_calendar a;
     Appointment.last_calendar_sync := Appointment.last_calendar_sync a;
     Appointment.appointment_type := Appointment.appointment_type a;
     Appointment.location := Appointment.location a;
     Appointment.reminder_sent := Appointment.reminder_sent a;
     Appointment.created_at := Appointment.created_at a;
     Appointment.updated_at := Appointment.updated_at a |}.

Definition set_calendar_sync (a : Appointment.t) (event_id : str)
    (synced : datetime) : Appointment.t :=
  {| Appointment.id := Appointment.id a;
     Appointment.user_id := Appointment.user_id a;
     Appointment.therapist_id := Appointment.therapist_id a;
     Appointment.appointment_datetime := Appointment.appointment_datetime a;
     Appointment.duration_minutes := Appointment.duration_minutes a;
     Appointment.status := Appointment.status a;
     Appointment.notes := Appointment.notes a;
     Appointment.google_calendar_event_id := Some event_id;
     Appointment.sync_with_calendar := Appointment.sync_with_calendar a;
     Appointment.last_calendar_sync := Some synced;
     Appointment.appointment_type := Appointment.appointment_type a;
     Appointment.location := Appointment.location a;
     Appointment.reminder_sent := Appointment.reminder_sent a;
     Appointment.created_at := Appointment.created_at a;
     Appointment.updated_at := Appointment.updated_at a |}.

Section Handlers.
Context `{Unicode} `{Bcrypt} `{Calendar}.

(** [POST /api/users/register]; [salt] is what [bcrypt.gensalt()] draws and
    [now] the clock at the insert. *)
Definition register_user (user : UserCreate.t) (salt : bytes) (now : datetime)
    : M User.t :=
  logger INFO [Lit "Registering new user: "; Val (PStr (UserCreate.username user))];;
  if negb (tuple_truthy (auth.validate_username (UserCreate.username user))) then
    raise (HTTPException 400 (py "Invalid username format"))
  else
    let '(is_valid, message) :=
      auth.validate_password_strength (UserCreate.password user) in
    if negb is_valid then raise (HTTPException 400 message)
    else
      do d <- get_db;
      let existing_user :=
        first (fun u => bool_decide (User.username u = UserCreate.username user)
                        || bool_decide (User.email u = UserCreate.email user))
              (users d) in
      match existing_user with
      | Some _ =>
          raise (HTTPException 400 (py "Username or email already registered"))
      | None =>
          do hashed_password <-
            lift (auth.get_password_hash (UserCreate.password user) salt);
          do db_user <-
            add_user (UserCreate.username user) (UserCreate.email user)
                     hashed_password (UserCreate.role user) now;
          logger INFO [Lit "User registered successfully: ";
                       Val (PStr (UserCreate.username user))];;
          ret db_user
      end.

(** [POST /api/appointments]; [now] is the clock at the insert, [synced]
    the clock after the calendar answered. *)
Definition create_appointment (appointment : AppointmentCreate.t)
    (current_user : User.t) (now synced : datetime) : M Appointment.t :=
  logger INFO [Lit "Creating appointment for user: ";
               Val (PStr (User.username current_user))];;
  do d <- get_db;
  let therapist :=
    first (fun u => bool_decide (User.id u = AppointmentCreate.therapist_id appointment)
                    && bool_decide (User.role u = py "therapist"))
          (users d) in
  match therapist with
  | None => raise (HTTPException 404 (py "Therapist not found"))
  | Some _ =>
      do db_appointment <- add_appointment (fun id =>
        {| Appointment.id := id;
           Appointment.user_id := User.id current_user;
           Appointment.therapist_id := AppointmentCreate.therapist_id appointment;
           Appointment.appointment_datetime :=
             AppointmentCreate.appointment_datetime appointment;
           Appointment.duration_minutes :=
             default 60 (AppointmentCreate.duration_minutes appointment);
           Appointment.status := py "scheduled";
           Appointment.notes := AppointmentCreate.notes appointment;
           Appointment.google_calendar_event_id := None;
           Appointment.sync_with_calendar :=
             default true (AppointmentCreate.sync_with_calendar appointment);
           Appointment.last_calendar_sync := None;
           Appointment.appointment_type :=
             Some (default (py "consultation")
                           (AppointmentCreate.appointment_type appointment));
           Appointment.location := AppointmentCreate.location appointment;
           Appointment.reminder_sent := false;
           Appointment.created_at := Some now;
           Appointment.updated_at := Some now |});
      do db_appointment <-
        (if default false (AppointmentCreate.sync_with_calendar appointment)
            && enabled
         then
           try_except
             (do d <- get_db;
              let patient :=
                first (fun u => bool_decide (User.id u = User.id current_user))
                      (users d) in
              let therapist :=
                first (fun u => bool_decide
                                  (User.id u = AppointmentCreate.therapist_id appointment))
                      (users d) in
              let calendar_data : gmap str pyval :=
                list_to_map
                  [(py "appointment_id", PInt (Appointment.id db_appointment));
                   (py "appointment_datetime",
                    PDatetime (AppointmentCreate.appointment_datetime appointment));
                   (py "duration_minutes",
                    of_option PInt (AppointmentCreate.duration_minutes appointment));
                   (py "appointment_type",
                    of_option PStr (AppointmentCreate.appointment_type appointment));
                   (py "location",
                    of_option PStr (AppointmentCreate.location appointment));
                   (py "notes", of_option PStr (AppointmentCreate.notes appointment));
                   (py "patient_name",
                    PStr (from_option User.username (py "Unknown") patient));
                   (py "patient_email",
                    of_option PStr (User.email <$> patient));
                   (py "therapist_name",
                    PStr (from_option User.username (py "Unknown") therapist));
                   (py "therapist_email",
                    of_option PStr (User.email <$> therapist))] in
              do event_id <- printing (create_event calendar_data);
              if truthy (of_option PStr event_id) then
                do refreshed <-
                  commit_appointment db_appointment
                    (set_calendar_sync db_appointment (default [] event_id) synced)
                    synced;
                logger INFO [Lit "Google Calendar event created for appointment ";
                             Val (PInt (Appointment.id refreshed)); Lit ": ";
                             Val (of_option PStr event_id)];;
                ret refreshed
              else
                logger WARNING
                  [Lit "Failed to create Google Calendar event for appointment ";
                   Val (PInt (Appointment.id db_appointment))];;
                ret db_appointment)
             (fun e =>
                logger ERROR [Lit "Error creating Google Calendar event: "; Exc e];;
                ret db_appointment)
         else ret db_appointment);
      logger INFO [Lit "Appointment created: ";
                   Val (PInt (Appointment.id db_appointment))];;
      ret db_appointment
  end.

(** [DELETE /api/appointments/{appointment_id}]. *)
Definition delete_appointment (appointment_id : Z) (current_user : User.t)
    (now : datetime) : M (gmap str pyval) :=
  do d <- get_db;
  let appointment :=
    first (fun a => bool_decide (Appointment.id a = appointment_id))
          (appointments d) in
  match appointment with
  | None => raise (HTTPException 404 (py "Appointment not found"))
  | Some appointment =>
      if bool_decide (Appointment.user_id appointment ≠ User.id current_user)
         && bool_decide (Appointment.therapist_id appointment ≠ User.id current_user)
         && bool_decide (User.role current_user ≠ py "admin")
      then raise (HTTPException 403 (py "Not authorized to delete this appointment"))
      else
        commit_appointment appointment (set_status appointment (py "cancelled")) now;;
        ret {[ py "message" := PStr (py "Appointment cancelled successfully") ]}
  end.

(** [PATCH /api/users/{user_id}/status]. *)
Definition toggle_user_status (user_id : Z) (status_data : gmap str pyval)
    (current_user : User.t) : M (gmap str pyval) :=
  if bool_decide (User.role current_user ≠ py "admin") then
    raise (HTTPException 403 (py "Only administrators can change user status"))
  else
    do d <- get_db;
    match first (fun u => bool_decide (User.id u = user_id)) (users d) with
    | None => raise (HTTPException 404 (py "User not found"))
    | Some loaded =>
        let user := {| columns := loaded; instance_dict := ∅ |} in
        if bool_decide (User.id (columns user) = User.id current_user) then
          raise (HTTPException 400 (py "Cannot disable your own account"))
        else
          let new_status := default PNone (status_data !! py "is_active") in
          if bool_decide (new_status = PNone) then
            raise (HTTPException 400 (py "is_active field is required"))
          else
            let user := set_instance_attribute user (py "is_active") new_status in
            commit_user loaded user;;
            let status_text :=
              if truthy new_status then py "enabled" else py "disabled" in
            logger INFO [Lit "User "; Val (PStr (User.username (columns user)));
                         Lit " "; Val (PStr status_text); Lit " by ";
                         Val (PStr (User.username current_user))];;
            ret (list_to_map
                   [(py "message",
                     PStr (py "User " ++ status_text ++ py " successfully"));
                    (py "user_id", PInt user_id);
                    (py "is_active", new_status)])
    end.

End Handlers.

(** [POST /api/token]. *)
Record Token := {
  access_token : jwt.token;
  token_type : str;
}.

(** The claims [login] hands to [create_access_token]. *)
Definition login_claims (user : User.t) : gmap str pyval :=
  <[py "sub" := PStr (User.username user)]>
    (<[py "user_id" := PInt (User.id user)]> ∅).

Section Login.
Context `{Bcrypt} `{Hs256} (SECRET_KEY : str).

Definition login (form_username form_password : str) (now : datetime) : M Token :=
  logger INFO [Lit "Login attempt: "; Val (PStr form_username)];;
  do d <- get_db;
  let user := first (fun u => bool_decide (User.username u = form_username)) (users d) in
  do verified <-
    match user with
    | None => ret false
    | Some user =>
        printing (auth.verify_password form_password
                    (auth.IsStr (User.hashed_password user)))
    end;
  match user with
  | Some user =>
      if verified then
        let access_token :=
          auth.create_access_token SECRET_KEY (login_claims user) None now in
        logger INFO [Lit "User logged in successfully: "; Val (PStr form_username)];;
        ret {| access_token := access_token; token_type := py "bearer" |}
      else
        logger WARNING [Lit "Failed login attempt: "; Val (PStr form_username)];;
        raise (HTTPException 401 (py "Incorrect username or password"))
  | None =>
      logger WARNING [Lit "Failed login attempt: "; Val (PStr form_username)];;
      raise (HTTPException 401 (py "Incorrect username or password"))
  end.

End Login.

(** ** models.py: the other methods of [User] *)

Definition get_permissions (self : User.t) (db_session : Db) : list str :=
  if bool_decide (User.role self = py "admin") then
    Permission.name <$> permissions db_session
  else
    (fun '(p, rp) => Permission.name p)
      <$> List.filter (fun '(p, rp) =>
                         bool_decide (RolePermission.role rp = User.role self))
                      (permission_join db_session).

Definition can_access_module (self : User.t) (module_name : str)
    (db_session : Db) : bool :=
  if bool_decide (User.role self = py "admin") then true
  else
    let result :=
      first (fun '(p, rp) =>
               bool_decide (RolePermission.role rp = User.role self)
               && bool_decide (Permission.module p = module_name))
            (permission_join db_session) in
    match result with
    | Some _ => true
    | None => false
    end.

(** ** rbac_decorators.py: the other checks *)

Definition get_user_permissions (current_user : User.t) (d : Db) : list str :=
  get_permissions current_user d.

Definition can_access_user_data (current_user : User.t) (target_user_id : Z)
    (d : Db) : bool :=
  if bool_decide (User.role current_user = py "admin") then true
  else if bool_decide (User.id current_user = target_user_id) then true
  else if bool_decide (User.role current_user
                       ∈ [py "therapist"; py "physician"; py "health_coach"])
  then
    let appointment :=
      first (fun a => bool_decide (Appointment.therapist_id a = User.id current_user)
                      && bool_decide (Appointment.user_id a = target_user_id))
            (appointments d) in
    match appointment with
    | Some _ => true
    | None => false
    end
  else false.

(** The decorators wrap an endpoint [func]; [current_user] is what the
    keyword arguments hold under that name ([None] when it is missing) and
    [has_db] says whether they hold a session under [db]. *)
Definition require_permission {A} (permission_name : str) (func : M A)
    (current_user : option User.t) (has_db : bool) : M A :=
  match current_user with
  | Some user =>
      if negb has_db then
        raise (HTTPException 401 (py "Authentication required"))
      else
        do d <- get_db;
        if negb (has_permission user permission_name d) then
          raise (HTTPException 403
                   (py "Insufficient permissions. Required: " ++ permission_name))
        else func
  | None => raise (HTTPException 401 (py "Authentication required"))
  end.

Definition require_admin {A} (func : M A) (current_user : option User.t) : M A :=
  match current_user with
  | Some user =>
      if bool_decide (User.role user ≠ py "admin") then
        raise (HTTPException 403 (py "Admin access required"))
      else func
  | None => raise (HTTPException 401 (py "Authentication required"))
  end.

(** [', '.join(l)]. *)
Fixpoint join_comma (l : list str) : str :=
  match l with
  | [] => []
  | [s] => s
  | s :: l' => s ++ py ", " ++ join_comma l'
  end.

Definition require_role {A} (allowed_roles : list str) (func : M A)
    (current_user : option User.t) : M A :=
  match current_user with
  | Some user =>
      if bool_decide (User.role user ∉ allowed_roles) then
        raise (HTTPException 403
                 (py "Access denied. Required roles: " ++ join_comma allowed_roles))
      else func
  | None => raise (HTTPException 401 (py "Authentication required"))
  end.

(** ** 07_main_fixed4.py: more endpoints *)

Module AppointmentUpdate.
Record t := {
  therapist_id : option Z;
  appointment_datetime : option datetime;
  duration_minutes : option Z;
  appointment_type : option str;
  location : option str;
  notes : option str;
  sync_with_calendar : option bool;
}.
End AppointmentUpdate.

(** [x in l] for a list [l] of strings. *)
Definition in_strs (v : pyval) (l : list str) : bool :=
  match v with
  | PStr s => bool_decide (s ∈ l)
  | _ => false
  end.

(** The string a value of [in_strs] is. *)
Definition str_of (v : pyval) : str :=
  match v with
  | PStr s => s
  | _ => []
  end.

Definition set_role (u : User.t) (role : str) : User.t :=
  {| User.id := User.id u; User.username := User.username u;
     User.email := User.email u; User.hashed_password := User.hashed_password u;
     User.role := role; User.created_at := User.created_at u |}.

(** The assignments of [update_appointment]: each field of the body that
    is not [None] replaces the column. *)
Definition assign_update (a : Appointment.t) (u : AppointmentUpdate.t)
    : Appointment.t :=
  {| Appointment.id := Appointment.id a;
     Appointment.user_id := Appointment.user_id a;
     Appointment.therapist_id :=
       default (Appointment.therapist_id a) (AppointmentUpdate.therapist_id u);
     Appointment.appointment_datetime :=
       default (Appointment.appointment_datetime a)
               (AppointmentUpdate.appointment_datetime u);
     Appointment.duration_minutes :=
       default (Appointment.duration_minutes a)
               (AppointmentUpdate.duration_minutes u);
     Appointment.status := Appointment.status a;
     Appointment.notes :=
       match AppointmentUpdate.notes u with
       | Some n => Some n
       | None => Appointment.notes a
       end;
     Appointment.google_calendar_event_id := Appointment.google_calendar_event_id a;
     Appointment.sync_with_calendar :=
       default (Appointment.sync_with_calendar a)
               (AppointmentUpdate.sync_with_calendar u);
     Appointment.last_calendar_sync := Appointment.last_calendar_sync a;
     Appointment.appointment_type :=
       match AppointmentUpdate.appointment_type u with
       | Some t => Some t
       | None => Appointment.appointment_type a
       end;
     Appointment.location :=
       match AppointmentUpdate.location u with
       | Some l => Some l
       | None => Appointment.location a
       end;
     Appointment.reminder_sent := Appointment.reminder_sent a;
     Appointment.created_at := Appointment.created_at a;
     Appointment.updated_at := Appointment.updated_at a |}.

Definition valid_roles : list str :=
  [py "patient"; py "therapist"; py "admin"; py "health_coach"; py "physician";
   py "partner"].

(** [[status.value for status in AppointmentStatus]]. *)
Definition valid_statuses : list str :=
  [py "scheduled"; py "confirmed"; py "completed"; py "cancelled"; py "no_show"].


(** [PATCH /api/users/{user_id}/role]. *)
Definition update_user_role (user_id : Z) (role_data : gmap str pyval)
    (current_user : User.t) : M (gmap str pyval) :=
  do d <- get_db;
  if negb (has_permission current_user (py "users.manage_roles") d) then
    raise (HTTPException 403 (py "Insufficient permissions to manage user roles"))
  else
    match first (fun u => bool_decide (User.id u = user_id)) (users d) with
    | None => raise (HTTPException 404 (py "User not found"))
    | Some user =>
        let new_role := default PNone (role_data !! py "role") in
        if negb (in_strs new_role valid_roles) then
          raise (HTTPException 400
                   (py "Invalid role. Must be one of: " ++ join_comma valid_roles))
        else
          commit_user user {| columns := set_role user (str_of new_role);
                              instance_dict := ∅ |};;
          logger INFO [Lit "User "; Val (PStr (User.username user));
                       Lit " role updated to "; Val new_role; Lit " by ";
                       Val (PStr (User.username current_user))];;
          ret (list_to_map
                 [(py "message", PStr (py "Role updated successfully"));
                  (py "user_id", PInt user_id);
                  (py "new_role", new_role)])
    end.


(** [GET /api/appointments/my]. *)
Definition get_my_appointments (current_user : User.t) : M (list Appointment.t) :=
  do d <- get_db;
  if negb (has_permission current_user (py "appointments.view_own") d) then
    raise (HTTPException 403 (py "Insufficient permissions to view appointments"))
  else
    ret (List.filter
           (fun a => bool_decide (Appointment.user_id a = User.id current_user)
                     || bool_decide (Appointment.therapist_id a = User.id current_user))
           (appointments d)).

(** [GET /api/appointments/{appointment_id}]. *)
Definition get_appointment (appointment_id : Z) (current_user : User.t)
    : M Appointment.t :=
  do d <- get_db;
  match first (fun a => bool_decide (Appointment.id a = appointment_id))
              (appointments d) with
  | None => raise (HTTPException 404 (py "Appointment not found"))
  | Some appointment =>
      if negb (can_access_appointment current_user appointment_id d) then
        raise (HTTPException 403 (py "Not authorized to view this appointment"))
      else ret appointment
  end.

(** [PUT /api/appointments/{appointment_id}]. *)
Definition update_appointment (appointment_id : Z)
    (appointment_update : AppointmentUpdate.t) (current_user : User.t)
    (now : datetime) : M Appointment.t :=
  do d <- get_db;
  match first (fun a => bool_decide (Appointment.id a = appointment_id))
              (appointments d) with
  | None => raise (HTTPException 404 (py "Appointment not found"))
  | Some appointment =>
      if bool_decide (Appointment.user_id appointment ≠ User.id current_user)
         && bool_decide (Appointment.therapist_id appointment ≠ User.id current_user)
         && bool_decide (User.role current_user ≠ py "admin")
      then raise (HTTPException 403 (py "Not authorized to update this appointment"))
      else
        commit_appointment appointment
          (assign_update appointment appointment_update) now
  end.

(** [PATCH /api/appointments/{appointment_id}/status]. *)
Definition update_appointment_status (appointment_id : Z)
    (status_update : gmap str pyval) (current_user : User.t) (now : datetime)
    : M (gmap str pyval) :=
  do d <- get_db;
  match first (fun a => bool_decide (Appointment.id a = appointment_id))
              (appointments d) with
  | None => raise (HTTPException 404 (py "Appointment not found"))
  | Some appointment =>
      if bool_decide (Appointment.user_id appointment ≠ User.id current_user)
         && bool_decide (Appointment.therapist_id appointment ≠ User.id current_user)
         && bool_decide (User.role current_user ≠ py "admin")
      then raise (HTTPException 403 (py "Not authorized to update this appointment"))
      else
        let new_status := default PNone (status_update !! py "status") in
        if negb (in_strs new_status valid_statuses) then
          raise (HTTPException 400
                   (py "Invalid status. Must be one of: ['scheduled', 'confirmed', 'completed', 'cancelled', 'no_show']"))
        else
          commit_appointment appointment
            (set_status appointment (str_of new_status)) now;;
          ret (list_to_map
                 [(py "message", PStr (py "Status updated successfully"));
                  (py "status", new_status)])
  end.

(** [GET /api/therapists]. *)
Definition get_therapists (current_user : User.t) : M (list (gmap str pyval)) :=
  do d <- get_db;
  let therapists :=
    List.filter (fun u => bool_decide (User.role u = py "therapist")) (users d) in
  ret ((fun therapist =>
          list_to_map [(py "id", PInt (User.id therapist));
                       (py "username", PStr (User.username therapist));
                       (py "email", PStr (User.email therapist))])
         <$> therapists).

(** ** Executable instances of the collaborators

    Small instances of the interfaces above, on which the handlers can be
    run: the character tables restricted to ASCII, a hash that writes the
    password in hexadecimal after a prefix, a constant signature, and a
    calendar whose every call raises. *)

Module Instances.

Definition ascii_tables : Unicode := {|
  isupper := fun c => ((65 <=? c) && (c <=? 90))%N;
  islower := fun c => ((97 <=? c) && (c <=? 122))%N;
  isdigit := fun c => ((48 <=? c) && (c <=? 57))%N;
  isalpha := fun c => (((65 <=? c) && (c <=? 90)) || ((97 <=? c) && (c <=? 122)))%N;
  isalnum := fun c => (((65 <=? c) && (c <=? 90)) || ((97 <=? c) && (c <=? 122))
                       || ((48 <=? c) && (c <=? 57)))%N;
|}.

Definition hex_digit (n : N) : N :=
  (if n <? 10 then 48 + n else 87 + n)%N.

Definition hex (bs : bytes) : bytes :=
  flat_map (fun b => [hex_digit ((b / 16) mod 16); hex_digit (b mod 16)])%N bs.

Definition hex_bcrypt : Bcrypt := {|
  hashpw := fun password salt => Return (py "$hex$" ++ hex password);
  checkpw := fun password hashed =>
    Return (bool_decide (hashed = py "$hex$" ++ hex password));
|}.

Definition constant_hs256 : Hs256 := {|
  hs256 := fun key payload => 0%N;
|}.

Definition failing_calendar : Calendar := {|
  enabled := true;
  create_event := fun _ => (Raise (LibraryError "ConnectionError"), []);
|}.

Definition failing_api : GoogleApi := {|
  insert_event := fun _ => Raise HttpError;
|}.

Definition empty_db : Db := {|
  users := []; permissions := []; role_permissions := [];
  appointments := []; users_seq := 0; appointments_seq := 0;
|}.

Definition empty_world : World := {| db := empty_db; log := [] |}.

Definition view_own : Permission.t := {|
  Permission.id := 1; Permission.name := py "appointments.view_own";
  Permission.description := None; Permission.module := py "appointments";
  Permission.action := py "view_own"; Permission.created_at := None |}.

Definition patient_view_own : RolePermission.t := {|
  RolePermission.id := 1; RolePermission.role := py "patient";
  RolePermission.permission_id := 1; RolePermission.created_at := None |}.

Definition person (id : Z) (name : string) (role : string) : User.t := {|
  User.id := id; User.username := py name;
  User.email := py name ++ py "@example.com";
  User.hashed_password := py "$hex$"; User.role := py role;
  User.created_at := None |}.

Definition visit : Appointment.t := {|
  Appointment.id := 7; Appointment.user_id := 1; Appointment.therapist_id := 2;
  Appointment.appointment_datetime := 1000; Appointment.duration_minutes := 60;
  Appointment.status := py "scheduled"; Appointment.notes := Some (py "first visit");
  Appointment.google_calendar_event_id := Some (py "evt1");
  Appointment.sync_with_calendar := true; Appointment.last_calendar_sync := None;
  Appointment.appointment_type := Some (py "consultation");
  Appointment.location := None; Appointment.reminder_sent := false;
  Appointment.created_at := Some 10; Appointment.updated_at := Some 10 |}.

Definition clinic : Db := {|
  users := [person 1 "alice" "patient"; person 2 "bob" "therapist";
            person 3 "root" "admin"; person 4 "carol" "patient"];
  permissions := [view_own];
  role_permissions := [patient_view_own];
  appointments := [visit];
  users_seq := 4; appointments_seq := 7;
|}.

Definition clinic_world : World := {| db := clinic; log := [] |}.

Definition booking : AppointmentCreate.t := {|
  AppointmentCreate.therapist_id := 2;
  AppointmentCreate.appointment_datetime := 5000;
  AppointmentCreate.duration_minutes := None;
  AppointmentCreate.appointment_type := None;
  AppointmentCreate.location := None;
  AppointmentCreate.notes := Some (py "follow-up");
  AppointmentCreate.sync_with_calendar := Some true |}.

End Instances.

(** A larger database and further service objects for the scenarios
    below. *)
Module Fixtures.
Import Instances.

Definition manage_roles : Permission.t := {|
  Permission.id := 2; Permission.name := py "users.manage_roles";
  Permission.description := None; Permission.module := py "users";
  Permission.action := py "manage_roles"; Permission.created_at := None |}.

Definition physician_manage_roles : RolePermission.t := {|
  RolePermission.id := 2; RolePermission.role := py "physician";
  RolePermission.permission_id := 2; RolePermission.created_at := None |}.

Definition hospital : Db := {|
  users := [person 1 "alice" "patient"; person 2 "bob" "therapist";
            person 3 "root" "admin"; person 4 "carol" "patient";
            person 5 "dave" "physician"];
  permissions := [view_own; manage_roles];
  role_permissions := [patient_view_own; physician_manage_roles];
  appointments := [visit];
  users_seq := 5; appointments_seq := 7;
|}.

Definition hospital_world : World := {| db := hospital; log := [] |}.

Definition working_calendar : Calendar := {|
  enabled := true;
  create_event := fun _ => (Return (Some (py "evt42")), []);
|}.

Definition disabled_calendar : Calendar := {|
  enabled := false;
  create_event := fun _ => (Raise (LibraryError "ConnectionError"), []);
|}.

Definition newcomer : UserCreate.t := {|
  UserCreate.username := py "erin";
  UserCreate.email := py "erin@example.com";
  UserCreate.password := py "Passw0rd1";
  UserCreate.role := py "admin" |}.

Definition no_update : AppointmentUpdate.t := {|
  AppointmentUpdate.therapist_id := None;
  AppointmentUpdate.appointment_datetime := None;
  AppointmentUpdate.duration_minutes := None;
  AppointmentUpdate.appointment_type := None;
  AppointmentUpdate.location := None;
  AppointmentUpdate.notes := None;
  AppointmentUpdate.sync_with_calendar := None |}.

Definition reassign (therapist_id : Z) : AppointmentUpdate.t := {|
  AppointmentUpdate.therapist_id := Some therapist_id;
  AppointmentUpdate.appointment_datetime := None;
  AppointmentUpdate.duration_minutes := None;
  AppointmentUpdate.appointment_type := None;
  AppointmentUpdate.location := None;
  AppointmentUpdate.notes := Some (py "moved");
  AppointmentUpdate.sync_with_calendar := None |}.

(** A registration by the name [name]. *)
Definition applicant (name : string) (role : string) : UserCreate.t := {|
  UserCreate.username := py name;
  UserCreate.email := py name ++ py "@example.com";
  UserCreate.password := py "Passw0rd1";
  UserCreate.role := py role |}.

(** The row of [newcomer] under the executable bcrypt, and the hospital
    with that row. *)
Definition erin : User.t := {|
  User.id := 6; User.username := py "erin";
  User.email := py "erin@example.com";
  User.hashed_password := py "$hex$506173737730726431";
  User.role := py "admin"; User.created_at := Some 5 |}.

Definition enrolled_world : World := {|
  db := {| users := users hospital ++ [erin];
           permissions := permissions hospital;
           role_permissions := role_permissions hospital;
           appointments := appointments hospital;
           users_seq := 6; appointments_seq := 7 |};
  log := [] |}.

(** The clinic with an empty catalog: no role is granted anything. *)
Definition ungranted_world : World := {|
  db := {| users := users clinic; permissions := []; role_permissions := [];
           appointments := appointments clinic;
           users_seq := 4; appointments_seq := 7 |};
  log := [] |}.

(** A booking with the user of key [therapist_id]. *)
Definition booking_with (therapist_id : Z) : AppointmentCreate.t := {|
  AppointmentCreate.therapist_id := therapist_id;
  AppointmentCreate.appointment_datetime := 5000;
  AppointmentCreate.duration_minutes := None;
  AppointmentCreate.appointment_type := None;
  AppointmentCreate.location := None;
  AppointmentCreate.notes := None;
  AppointmentCreate.sync_with_calendar := Some true |}.

End Fixtures.

(** ** Vocabulary of the statements *)

(** A [RolePermission] row joins the role to a [Permission] of that name. *)
Definition granted (d : Db) (role permission_name : str) : Prop :=
  exists rp p,
    rp ∈ role_permissions d /\ p ∈ permissions d
    /\ RolePermission.permission_id rp = Permission.id p
    /\ RolePermission.role rp = role
    /\ Permission.name p = permission_name.

(** Octets, or code points, all below 128. *)
Definition is_ascii (bs : list N) : Prop := Forall (fun b => (b < 0x80)%N) bs.

(** A password that the strength rules refuse. *)
Definition weak_password `{Unicode} (password : str) : Prop :=
  (length password < 8)%nat
  \/ (72 < length password)%nat
  \/ (forall c, c ∈ password -> isupper c = false)
  \/ (forall c, c ∈ password -> islower c = false)
  \/ (forall c, c ∈ password -> isdigit c = false).

(** The expiry instant [create_access_token] computes at [issued]. *)
Definition expiry_instant (expires_delta : option timedelta)
    (issued : datetime) : datetime :=
  match expires_delta with
  | Some delta =>
      if bool_decide (delta = 0)
      then issued + minutes auth.ACCESS_TOKEN_EXPIRE_MINUTES
      else issued + delta
  | None => issued + minutes auth.ACCESS_TOKEN_EXPIRE_MINUTES
  end.

(** The new appointment [row] was stored without calendar sync, and the
    exception [e] was logged as an error. *)
Definition persisted_without_sync (appointment : AppointmentCreate.t)
    (current_user : User.t) (e : exn) (w w' : World) (row : Appointment.t)
    : Prop :=
  appointments (db w') = appointments (db w) ++ [row]
  /\ users (db w') = users (db w)
  /\ Appointment.google_calendar_event_id row = None
  /\ Appointment.last_calendar_sync row = None
  /\ Appointment.user_id row = User.id current_user
  /\ Appointment.therapist_id row = AppointmentCreate.therapist_id appointment
  /\ Appointment.appointment_datetime row
     = AppointmentCreate.appointment_datetime appointment
  /\ Appointment.status row = py "scheduled"
  /\ exists msg, (ERROR, [Lit msg; Exc e]) ∈ log w'.

(** The users carry distinct keys, usernames and emails, and no key is
    beyond the sequence that hands out the next one. *)
Definition users_wf (d : Db) : Prop :=
  NoDup (User.id <$> users d)
  /\ NoDup (User.username <$> users d)
  /\ NoDup (User.email <$> users d)
  /\ Forall (fun u => User.id u <= users_seq d) (users d).

(** The same for the keys of the appointments. *)
Definition appointments_wf (d : Db) : Prop :=
  NoDup (Appointment.id <$> appointments d)
  /\ Forall (fun a => Appointment.id a <= appointments_seq d) (appointments d).

(** The requester is the patient or the provider of the appointment, or an
    admin. *)
Definition party (current_user : User.t) (a : Appointment.t) : Prop :=
  Appointment.user_id a = User.id current_user
  \/ Appointment.therapist_id a = User.id current_user
  \/ User.role current_user = py "admin".

(** Every appointment carries one of the five statuses. *)
Definition statuses_valid (d : Db) : Prop :=
  Forall (fun a => Appointment.status a ∈ valid_statuses) (appointments d).

(** * Properties *)

(** Run a handler: unfold the operations of [M]. *)
Ltac run :=
  unfold bind, logger, get_db, put_db, add_appointment, add_user, try_except,
    printing, lift, ret, raise; simpl.


(** ** Queries *)

Lemma first_Some {A} (p : A -> bool) (rows : list A) (a : A) :
  first p rows = Some a -> a ∈ rows /\ p a = true.
Proof.
  unfold first. intros Hf. apply find_some in Hf as [Hin Hp].
  split; [by apply list_elem_of_In | done].
Qed.

Lemma first_None {A} (p : A -> bool) (rows : list A) :
  first p rows = None <-> forall a, a ∈ rows -> p a = false.
Proof.
  unfold first. split.
  - intros Hf a Hin. apply (find_none p rows Hf). by apply list_elem_of_In.
  - induction rows as [|r rows IH]; simpl; [done|].
    intros Hall. rewrite (Hall r) by left.
    apply IH. intros a Hin. apply Hall. by right.
Qed.

Lemma first_is_Some {A} (p : A -> bool) (rows : list A) :
  is_Some (first p rows) <-> exists a, a ∈ rows /\ p a = true.
Proof.
  split.
  - intros [a Ha]. exists a. by apply first_Some in Ha.
  - intros (a & Hin & Hp). destruct (first p rows) eqn:Hf; [by eexists|].
    rewrite first_None in Hf. rewrite (Hf a Hin) in Hp. discriminate.
Qed.

(** ** Permission resolution *)

Lemma elem_of_permission_join (d : Db) p rp :
  (p, rp) ∈ permission_join d <->
  p ∈ permissions d /\ rp ∈ role_permissions d
  /\ RolePermission.permission_id rp = Permission.id p.
Proof.
  unfold permission_join. rewrite !list_elem_of_In, in_flat_map. split.
  - intros (p' & Hp' & Hin). apply in_flat_map in Hin as (rp' & Hrp' & Hin).
    case_bool_decide; [|by destruct Hin].
    destruct Hin as [[= <- <-]|[]]. done.
  - intros (Hp & Hrp & Hk). exists p. split; [done|].
    apply in_flat_map. exists rp. split; [done|].
    rewrite bool_decide_eq_true_2 by done. by left.
Qed.

Lemma has_permission_non_admin (user : User.t) (permission_name : str) (d : Db) :
  User.role user ≠ py "admin" ->
  has_permission user permission_name d = true
  <-> granted d (User.role user) permission_name.
Proof.
  intros Hrole. unfold has_permission, granted.
  rewrite bool_decide_eq_false_2 by done.
  match goal with |- context [first ?f ?l] =>
    pose proof (first_is_Some f l) as Hsome; destruct (first f l) as [[p rp]|] eqn:Hf
  end.
  - split; [intros _|done].
    apply first_Some in Hf as [Hin Hp].
    apply elem_of_permission_join in Hin as (Hp1 & Hrp & Hk).
    apply andb_true_iff in Hp as [Hr Hn].
    apply bool_decide_eq_true_1 in Hr, Hn. by exists rp, p.
  - split; [done|]. intros (rp & p & Hrp & Hp & Hk & Hr & Hn).
    assert (is_Some (@None (Permission.t * RolePermission.t))) as [? ?]; [|done].
    apply Hsome. exists (p, rp). split.
    + by apply elem_of_permission_join.
    + by rewrite !bool_decide_eq_true_2.
Qed.

(** C1. [has_permission] answers true for every admin whatever the catalog
    holds; for any other role it answers true exactly when a
    [RolePermission] row joins the role to a [Permission] of the requested
    name, so a role without rows is denied every permission. *)
Theorem has_permission_spec (user : User.t) (permission_name : str) (d : Db) :
  (User.role user = py "admin" -> has_permission user permission_name d = true)
  /\ (User.role user ≠ py "admin" ->
      (has_permission user permission_name d = true
       <-> granted d (User.role user) permission_name))
  /\ (User.role user ≠ py "admin" ->
      (forall rp, rp ∈ role_permissions d ->
                  RolePermission.role rp ≠ User.role user) ->
      has_permission user permission_name d = false).
Proof.
  split; [|split].
  - intros Hadmin. unfold has_permission. by rewrite bool_decide_eq_true_2.
  - apply has_permission_non_admin.
  - intros Hrole Hnone.
    destruct (has_permission user permission_name d) eqn:Hp; [|done].
    apply has_permission_non_admin in Hp as (rp & p & Hrp & _ & _ & Hr & _); [|done].
    by destruct (Hnone rp Hrp).
Qed.


(** ** Ownership of appointments *)

(** C2. With [appointment] the row that the lookup by id finds,
    [can_access_appointment] answers true exactly when the user is an
    admin, the patient or the assigned provider of it; when no row has the
    id it answers false for every user, admins included; and the answer
    depends on the appointments alone, not on what the permission catalog
    grants. *)
Theorem can_access_appointment_spec (current_user : User.t)
    (appointment_id : Z) (d : Db) :
  ((forall a, a ∈ appointments d -> Appointment.id a ≠ appointment_id) ->
   can_access_appointment current_user appointment_id d = false)
  /\ (forall appointment,
        first (fun a => bool_decide (Appointment.id a = appointment_id))
              (appointments d) = Some appointment ->
        appointment ∈ appointments d
        /\ Appointment.id appointment = appointment_id
        /\ (can_access_appointment current_user appointment_id d = true
            <-> User.role current_user = py "admin"
                \/ Appointment.user_id appointment = User.id current_user
                \/ Appointment.therapist_id appointment = User.id current_user))
  /\ (forall d' : Db,
        appointments d' = appointments d ->
        can_access_appointment current_user appointment_id d'
        = can_access_appointment current_user appointment_id d).
Proof.
  unfold can_access_appointment. split; [|split; [|by intros d' ->]].
  - intros Hnone.
    replace (first _ (appointments d)) with (@None Appointment.t); [done|].
    symmetry. apply first_None. intros a Hin.
    apply bool_decide_eq_false_2. by apply Hnone.
  - intros appointment Hf. rewrite Hf.
    apply first_Some in Hf as [Hin Hid]. apply bool_decide_eq_true_1 in Hid.
    split; [done|]. split; [done|].
    destruct (decide (User.role current_user = py "admin")) as [Hadm|Hadm].
    { rewrite bool_decide_eq_true_2 by done. naive_solver. }
    rewrite bool_decide_eq_false_2 by done.
    destruct (decide (Appointment.user_id appointment = User.id current_user)) as [Hpat|Hpat].
    { rewrite (bool_decide_eq_true_2 _ Hpat). naive_solver. }
    rewrite (bool_decide_eq_false_2 _ Hpat).
    destruct (decide (Appointment.therapist_id appointment = User.id current_user)) as [Hpro|Hpro].
    { rewrite (bool_decide_eq_true_2 _ Hpro). naive_solver. }
    rewrite (bool_decide_eq_false_2 _ Hpro). simpl.
    split; [done | intros [?|[?|?]]; done].
Qed.

(** With a primary key, the row found is the row of that id. *)
Lemma first_by_key {A} (key : A -> Z) (rows : list A) (a : A) :
  NoDup (key <$> rows) -> a ∈ rows ->
  first (fun r => bool_decide (key r = key a)) rows = Some a.
Proof.
  induction rows as [|r rows IH]; intros Hnd Hin; [by apply elem_of_nil in Hin|].
  simpl in *. inversion_clear Hnd as [|? ? Hr Hnd'].
  apply elem_of_cons in Hin as [->|Hin].
  - by rewrite bool_decide_eq_true_2.
  - case_bool_decide as Hk; [|by apply IH].
    destruct Hr. rewrite Hk. apply list_elem_of_fmap. by exists a.
Qed.

(** ** UTF-8 *)

(** [lia] over [N] with division and remainder by constants. *)
Ltac nlia := zify; Z.to_euclidean_division_equations; lia.

(** Decide the comparisons of the goal from the hypotheses. *)
Ltac decide_tests :=
  repeat match goal with
  | |- context [(?a <? ?b)%N] =>
      destruct (N.ltb_spec a b); try (exfalso; lia)
  | |- context [(?a <=? ?b)%N] =>
      destruct (N.leb_spec a b); try (exfalso; lia)
  | |- context [(?a =? ?b)%N] =>
      destruct (N.eqb_spec a b); try (exfalso; lia)
  end.

Lemma utf8_decode_1 (b0 : N) (rest : bytes) :
  (b0 < 0x80)%N ->
  utf8_decode (b0 :: rest) = s ← utf8_decode rest; Return (b0 :: s).
Proof. intros H0. cbn [utf8_decode]. by decide_tests. Qed.

Lemma utf8_decode_2 (b0 b1 : N) (rest : bytes) :
  (0xC2 <= b0 <= 0xDF)%N -> (0x80 <= b1 <= 0xBF)%N ->
  utf8_decode (b0 :: b1 :: rest)
  = s ← utf8_decode rest; Return (((b0 - 0xC0) * 0x40 + (b1 - 0x80))%N :: s).
Proof.
  intros H0 H1. cbn [utf8_decode]. unfold continuation. by decide_tests.
Qed.

Lemma utf8_decode_3 (b0 b1 b2 : N) (rest : bytes) :
  (0xE0 <= b0 <= 0xEF)%N -> (0x80 <= b1 <= 0xBF)%N -> (0x80 <= b2 <= 0xBF)%N ->
  (b0 = 0xE0 -> 0xA0 <= b1)%N -> (b0 = 0xED -> b1 <= 0x9F)%N ->
  utf8_decode (b0 :: b1 :: b2 :: rest)
  = s ← utf8_decode rest;
    Return (((b0 - 0xE0) * 0x1000 + (b1 - 0x80) * 0x40 + (b2 - 0x80))%N :: s).
Proof.
  intros H0 H1 H2 Hlow Hhigh. cbn [utf8_decode]. unfold continuation.
  by decide_tests.
Qed.

Lemma utf8_decode_4 (b0 b1 b2 b3 : N) (rest : bytes) :
  (0xF0 <= b0 <= 0xF4)%N -> (0x80 <= b1 <= 0xBF)%N -> (0x80 <= b2 <= 0xBF)%N ->
  (0x80 <= b3 <= 0xBF)%N ->
  (b0 = 0xF0 -> 0x90 <= b1)%N -> (b0 = 0xF4 -> b1 <= 0x8F)%N ->
  utf8_decode (b0 :: b1 :: b2 :: b3 :: rest)
  = s ← utf8_decode rest;
    Return (((b0 - 0xF0) * 0x40000 + (b1 - 0x80) * 0x1000
             + (b2 - 0x80) * 0x40 + (b3 - 0x80))%N :: s).
Proof.
  intros H0 H1 H2 H3 Hlow Hhigh. cbn [utf8_decode]. unfold continuation.
  by decide_tests.
Qed.

Lemma utf8_decode_encode_char (c : char) (b rest : bytes) (s : str) :
  utf8_encode_char c = Return b ->
  utf8_decode rest = Return s ->
  utf8_decode (b ++ rest) = Return (c :: s).
Proof.
  unfold utf8_encode_char, char in *. intros Hc Hrest.
  destruct (N.ltb_spec c 0x80).
  { injection Hc as <-. cbn [app]. rewrite utf8_decode_1 by done. by rewrite Hrest. }
  destruct (N.ltb_spec c 0x800).
  { injection Hc as <-. cbn [app]. rewrite utf8_decode_2 by nlia.
    rewrite Hrest. simpl. do 2 f_equal. nlia. }
  destruct (N.leb_spec 0xD800 c); destruct (N.leb_spec c 0xDFFF);
    simpl in Hc; try done.
  all: destruct (N.ltb_spec c 0x10000);
    [injection Hc as <-; cbn [app]; rewrite utf8_decode_3 by nlia;
     rewrite Hrest; simpl; do 2 f_equal; nlia|].
  all: destruct (N.leb_spec c 0x10FFFF); [|done].
  all: injection Hc as <-; cbn [app]; rewrite utf8_decode_4 by nlia;
    rewrite Hrest; simpl; do 2 f_equal; nlia.
Qed.

Theorem utf8_decode_encode (s : str) (bs : bytes) :
  utf8_encode s = Return bs -> utf8_decode bs = Return s.
Proof.
  revert bs. induction s as [|c s IH]; intros bs Hs.
  - by injection Hs as <-.
  - simpl in Hs. destruct (utf8_encode_char c) as [b|] eqn:Hc; [|done].
    destruct (utf8_encode s) as [bs'|] eqn:Hbs; [|done].
    injection Hs as <-. eapply utf8_decode_encode_char; eauto.
Qed.

(** ** Passwords *)

Lemma utf8_encode_ascii (s : str) : is_ascii s -> utf8_encode s = Return s.
Proof.
  induction 1 as [|c s Hc _ IH]; [done|].
  simpl. unfold utf8_encode_char.
  apply N.ltb_lt in Hc. rewrite Hc, IH. reflexivity.
Qed.

Lemma utf8_decode_ascii (bs : bytes) : is_ascii bs -> utf8_decode bs = Return bs.
Proof.
  induction 1 as [|b bs Hb _ IH]; [done|].
  simpl. apply N.ltb_lt in Hb. rewrite Hb, IH. reflexivity.
Qed.

Lemma truncate_72_short (bs : bytes) :
  (length bs <= 72)%nat -> auth.truncate_72 bs = bs.
Proof.
  intros Hlen. unfold auth.truncate_72.
  rewrite bool_decide_eq_false_2 by lia. reflexivity.
Qed.

Lemma truncate_72_take (bs : bytes) :
  auth.truncate_72 (take 72 bs) = auth.truncate_72 bs.
Proof.
  unfold auth.truncate_72. rewrite length_take.
  rewrite (bool_decide_eq_false_2 (72 < 72 `min` length bs)%nat) by lia.
  case_bool_decide as Hlen; [done|].
  apply take_ge. lia.
Qed.

Lemma truncate_72_length (bs : bytes) :
  (length (auth.truncate_72 bs) <= 72)%nat.
Proof.
  unfold auth.truncate_72. case_bool_decide; [rewrite length_take|]; lia.
Qed.

Lemma truncate_72_is_take (bs : bytes) : auth.truncate_72 bs = take 72 bs.
Proof.
  unfold auth.truncate_72. case_bool_decide as Hlen; [done|].
  symmetry. apply take_ge. lia.
Qed.

Lemma utf8_encode_char_length (c : char) (b : bytes) :
  utf8_encode_char c = Return b -> (1 <= length b)%nat.
Proof.
  unfold utf8_encode_char.
  repeat match goal with |- context [if ?t then _ else _] => destruct t end;
    intros [= <-]; simpl; lia.
Qed.

(** The encoding of a slice [s[:n]] is a prefix of the encoding of [s], at
    least as long as the slice. *)
Lemma utf8_encode_take (n : nat) (s : str) (sb : bytes) :
  utf8_encode s = Return sb ->
  exists head rest,
    utf8_encode (take n s) = Return head
    /\ sb = head ++ rest
    /\ (length (take n s) <= length head)%nat.
Proof.
  revert n sb. induction s as [|c s IH]; intros n sb Hs.
  - injection Hs as <-. exists [], []. by destruct n.
  - destruct n as [|n]; [exists [], sb; by simpl|].
    simpl in Hs. destruct (utf8_encode_char c) as [b|] eqn:Hc; [|done].
    destruct (utf8_encode s) as [bs|] eqn:Hbs; [|done].
    injection Hs as <-.
    destruct (IH n bs eq_refl) as (head & rest & Hhead & -> & Hlen).
    exists (b ++ head), rest. simpl. rewrite Hc, Hhead. simpl.
    split; [done|]. split; [by rewrite app_assoc|].
    apply utf8_encode_char_length in Hc. rewrite length_app. lia.
Qed.

Section Passwords.
Context `{Bcrypt}.

(** Two passwords whose encodings agree on the first 72 bytes are the same
    to both functions. *)
Lemma password_prefix_significant (p q : str) (pb qb : bytes) :
  utf8_encode p = Return pb -> utf8_encode q = Return qb ->
  auth.truncate_72 pb = auth.truncate_72 qb ->
  (forall salt, auth.get_password_hash p salt = auth.get_password_hash q salt)
  /\ (forall h, auth.verify_password p h = auth.verify_password q h).
Proof.
  intros Hp Hq Heq. split.
  - intros salt. unfold auth.get_password_hash. rewrite Hp, Hq. simpl.
    by rewrite Heq.
  - intros h. unfold auth.verify_password, auth.verify_password_try.
    rewrite Hp, Hq. simpl. by rewrite Heq.
Qed.

(** C8. [verify_password] never raises: whatever the password, the stored
    value and the behaviour of [bcrypt.checkpw], it returns a boolean.
    Whenever something inside its [try] block raises it prints the error
    and returns [False]: so it does when [bcrypt.checkpw] raises on the
    stored bytes, when the stored string cannot be encoded, and when the
    stored value is neither a string nor bytes. *)
Theorem verify_password_total (plain_password : str)
    (hashed_password : auth.str_or_bytes) :
  (exists b, fst (auth.verify_password plain_password hashed_password) = Return b)
  /\ (forall e,
        auth.verify_password_try plain_password hashed_password = Raise e ->
        auth.verify_password plain_password hashed_password
        = (Return false, [(PRINT, [Lit "Password verification error: "; Exc e])]))
  /\ (forall pb hb e,
        utf8_encode plain_password = Return pb ->
        checkpw (auth.truncate_72 pb) hb = Raise e ->
        auth.verify_password plain_password (auth.IsBytes hb)
        = (Return false, [(PRINT, [Lit "Password verification error: "; Exc e])]))
  /\ (forall s e,
        utf8_encode s = Raise e ->
        fst (auth.verify_password plain_password (auth.IsStr s)) = Return false)
  /\ (forall v,
        fst (auth.verify_password plain_password (auth.IsOther v)) = Return false).
Proof.
  unfold auth.verify_password. repeat split.
  - destruct (auth.verify_password_try _ _); simpl; eauto.
  - by intros e ->.
  - intros pb hb e Hp Hc. unfold auth.verify_password_try.
    rewrite Hp. simpl. by rewrite Hc.
  - intros s e Hs. unfold auth.verify_password_try.
    destruct (utf8_encode plain_password); simpl; [by rewrite Hs|done].
  - intros v. unfold auth.verify_password_try.
    by destruct (utf8_encode plain_password).
Qed.

(** C3. For a password whose UTF-8 encoding [pb] has at most 72 bytes,
    where [bcrypt.hashpw] returns an ASCII hash that [bcrypt.checkpw]
    accepts for [pb], [get_password_hash] returns that hash and
    [verify_password] of the password against it is true.  For a password
    whose encoding is longer, a password [q] that encodes to the first 72
    bytes is hashed to the same value under every salt and verified alike
    against every stored hash; so is the slice [p[:72]] of its first 72
    characters. *)
Theorem verify_password_get_password_hash (salt : bytes) :
  (forall password pb hashed,
     utf8_encode password = Return pb ->
     (length pb <= 72)%nat ->
     hashpw pb salt = Return hashed ->
     is_ascii hashed ->
     checkpw pb hashed = Return true ->
     auth.get_password_hash password salt = Return hashed
     /\ auth.verify_password password (auth.IsStr hashed) = (Return true, []))
  /\ (forall p q pb,
        utf8_encode p = Return pb ->
        (72 < length pb)%nat ->
        utf8_encode q = Return (take 72 pb) ->
        auth.get_password_hash p salt = auth.get_password_hash q salt
        /\ forall h, auth.verify_password p h = auth.verify_password q h)
  /\ (forall p pb,
        utf8_encode p = Return pb ->
        auth.get_password_hash p salt = auth.get_password_hash (take 72 p) salt
        /\ forall h, auth.verify_password p h = auth.verify_password (take 72 p) h).
Proof.
  split; [|split].
  - intros password pb hashed Hp Hlen Hh Hascii Hc. split.
    + unfold auth.get_password_hash. rewrite Hp. simpl.
      rewrite truncate_72_short by done. rewrite Hh. simpl.
      by apply utf8_decode_ascii.
    + unfold auth.verify_password, auth.verify_password_try.
      rewrite Hp. simpl. rewrite truncate_72_short by done.
      rewrite (utf8_encode_ascii hashed Hascii). simpl. by rewrite Hc.
  - intros p q pb Hp _ Hq.
    destruct (password_prefix_significant p q pb (take 72 pb) Hp Hq) as [Hh Hv].
    + by rewrite truncate_72_take.
    + split; [apply Hh | apply Hv].
  - intros p pb Hp.
    destruct (utf8_encode_take 72 p pb Hp) as (head & rest & Hhead & -> & Hlen).
    destruct (password_prefix_significant p (take 72 p) (head ++ rest) head Hp Hhead)
      as [Hh Hv]; [|split; [apply Hh | apply Hv]].
    rewrite !truncate_72_is_take.
    destruct (decide (72 <= length head)%nat) as [Hlong|Hshort].
    + by apply take_app_le.
    + rewrite length_take in Hlen.
      assert (length p <= 72)%nat as Hp72 by lia.
      rewrite (take_ge p 72 Hp72) in Hhead. rewrite Hp in Hhead.
      injection Hhead as Hhead. by rewrite Hhead.
Qed.

End Passwords.

(** ** Registration *)

Section Registration.
Context `{Unicode} `{Bcrypt}.

Lemma existsb_false {A} (f : A -> bool) (l : list A) :
  existsb f l = false <-> forall a, a ∈ l -> f a = false.
Proof.
  induction l as [|x l IH]; simpl.
  - split; [intros _ a Ha; by apply elem_of_nil in Ha | done].
  - rewrite orb_false_iff, IH. split.
    + intros [Hx Hl] a Ha. apply elem_of_cons in Ha as [->|Ha]; auto.
    + intros Hall. split; [apply Hall; left | intros a Ha; apply Hall; by right].
Qed.

Lemma validate_password_strength_weak (password : str) :
  weak_password password ->
  exists message,
    message ≠ [] /\ auth.validate_password_strength password = (false, message).
Proof.
  intros Hweak. unfold auth.validate_password_strength.
  case_bool_decide as H8; [eexists; split; [|reflexivity]; done|].
  case_bool_decide as H72; [eexists; split; [|reflexivity]; done|].
  destruct Hweak as [?|[?|Hweak]]; [lia|lia|].
  assert (existsb isupper password && existsb islower password
          && existsb isdigit password = false) as ->;
    [|eexists; split; [|reflexivity]; done].
  rewrite !andb_false_iff, !existsb_false. tauto.
Qed.

Lemma validate_password_strength_strong (password : str) :
  ~ weak_password password ->
  auth.validate_password_strength password = (true, py "").
Proof.
  intros Hstrong. unfold auth.validate_password_strength.
  case_bool_decide as H8; [destruct Hstrong; by left|].
  case_bool_decide as H72; [destruct Hstrong; right; by left|].
  destruct (existsb isupper password) eqn:Hu; simpl;
    [|destruct Hstrong; do 2 right; left; by apply existsb_false].
  destruct (existsb islower password) eqn:Hl; simpl;
    [|destruct Hstrong; do 3 right; left; by apply existsb_false].
  destruct (existsb isdigit password) eqn:Hd; simpl;
    [done|destruct Hstrong; do 4 right; by apply existsb_false].
Qed.

(** C6. A registration whose password is too short, too long, or lacks an
    uppercase letter, a lowercase letter or a digit is answered with a 400
    error carrying the rule's message, and the database is left as it was:
    only the log line of the attempt is added. *)
Theorem register_user_weak_password (user : UserCreate.t) (salt : bytes)
    (now : datetime) (w : World) :
  weak_password (UserCreate.password user) ->
  exists message,
    message ≠ []
    /\ auth.validate_password_strength (UserCreate.password user) = (false, message)
    /\ register_user user salt now w
       = (Raise (HTTPException 400 message),
          {| db := db w;
             log := log w ++ [(INFO, [Lit "Registering new user: ";
                                      Val (PStr (UserCreate.username user))])] |}).
Proof.
  intros Hweak.
  destruct (validate_password_strength_weak _ Hweak) as (message & Hne & Hv).
  exists message. split; [done|]. split; [done|].
  unfold register_user, tuple_truthy. run.
  rewrite Hv. reflexivity.
Qed.

(** The username plays no part in the decision: whatever it is, a request
    with a strong password, a free username and email and a password that
    hashes is stored. *)
Lemma register_user_never_validates_username (user : UserCreate.t)
    (salt : bytes) (now : datetime) (w : World) (hashed : str) :
  ~ weak_password (UserCreate.password user) ->
  first (fun u => bool_decide (User.username u = UserCreate.username user)
                  || bool_decide (User.email u = UserCreate.email user))
        (users (db w)) = None ->
  auth.get_password_hash (UserCreate.password user) salt = Return hashed ->
  fst (register_user user salt now w)
  = Return {| User.id := users_seq (db w) + 1;
              User.username := UserCreate.username user;
              User.email := UserCreate.email user;
              User.hashed_password := hashed;
              User.role := UserCreate.role user;
              User.created_at := Some now |}.
Proof.
  intros Hstrong Hfree Hhash.
  unfold register_user, tuple_truthy. run.
  rewrite (validate_password_strength_strong _ Hstrong). simpl.
  rewrite Hfree, Hhash. reflexivity.
Qed.

End Registration.

(** C4. The handler tests the truth value of the pair that
    [validate_username] returns, which is true whatever the pair holds: a
    request with the two-character username [ab], which the validator
    refuses, is registered and its row stored. *)
Theorem register_user_malformed_username :
  let user := {| UserCreate.username := py "ab";
                 UserCreate.email := py "ab@example.com";
                 UserCreate.password := py "Passw0rd1";
                 UserCreate.role := py "patient" |} in
  let row := {| User.id := 1; User.username := py "ab";
                User.email := py "ab@example.com";
                User.hashed_password := py "$hex$506173737730726431";
                User.role := py "patient"; User.created_at := Some 5 |} in
  @auth.validate_username Instances.ascii_tables (py "ab")
  = (false, py "Username must be at least 3 characters long")
  /\ fst (@register_user Instances.ascii_tables Instances.hex_bcrypt
            user [] 5 Instances.empty_world) = Return row
  /\ users (db (snd (@register_user Instances.ascii_tables Instances.hex_bcrypt
                       user [] 5 Instances.empty_world))) = [row].
Proof. vm_compute. auto. Qed.

(** ** Tokens *)

Lemma py_exp_ne_iat : py "exp" ≠ py "iat". Proof. discriminate. Qed.
Lemma py_exp_ne_nbf : py "exp" ≠ py "nbf". Proof. discriminate. Qed.
Lemma py_sub_ne_exp : py "sub" ≠ py "exp". Proof. discriminate. Qed.
Lemma py_sub_ne_iat : py "sub" ≠ py "iat". Proof. discriminate. Qed.
Lemma py_sub_ne_nbf : py "sub" ≠ py "nbf". Proof. discriminate. Qed.

Section Tokens.
Context `{Hs256} (SECRET_KEY : str).

(** What a token made by [create_access_token] carries. *)
Lemma create_access_token_payload (data : gmap str pyval)
    (expires_delta : option timedelta) (issued : datetime) :
  exists payload,
    auth.create_access_token SECRET_KEY data expires_delta issued
    = jwt.Jws payload (hs256 SECRET_KEY payload)
    /\ payload !! py "exp"
       = Some (PInt (jwt.timegm (expiry_instant expires_delta issued)))
    /\ payload !! py "sub" = data !! py "sub".
Proof.
  unfold auth.create_access_token, jwt.encode. eexists. split; [reflexivity|].
  split.
  - rewrite lookup_alter_eq.
    rewrite (lookup_alter_ne _ _ (py "iat") (py "exp")) by done.
    rewrite (lookup_alter_ne _ _ (py "nbf") (py "exp")) by done.
    rewrite lookup_insert_eq. simpl. do 3 f_equal.
    unfold expiry_instant. destruct expires_delta as [delta|]; [|done].
    case_bool_decide as Hz.
    + subst delta. reflexivity.
    + apply Z.eqb_neq in Hz. by rewrite Hz.
  - rewrite (lookup_alter_ne _ _ (py "exp") (py "sub")) by done.
    rewrite (lookup_alter_ne _ _ (py "iat") (py "sub")) by done.
    rewrite (lookup_alter_ne _ _ (py "nbf") (py "sub")) by done.
    by rewrite lookup_insert_ne.
Qed.

Lemma login_claims_sub (user : User.t) :
  login_claims user !! py "sub" = Some (PStr (User.username user)).
Proof. unfold login_claims. by rewrite lookup_insert_eq. Qed.

(** Resolution of a token of [login] at the instant [now], by the whole
    seconds of [now] and of the expiry instant. *)
Lemma get_current_user_login_token (user : User.t)
    (expires_delta : option timedelta) (issued now : datetime) (w : World) :
  first (fun u => bool_decide (User.username u = User.username user))
        (users (db w)) = Some user ->
  auth.get_current_user SECRET_KEY
    (auth.create_access_token SECRET_KEY (login_claims user) expires_delta issued)
    now w
  = if jwt.timegm (expiry_instant expires_delta issued) <? jwt.timegm now
    then (Raise auth.credentials_exception, w)
    else (Return user, w).
Proof.
  intros Hfound.
  destruct (create_access_token_payload (login_claims user) expires_delta issued)
    as (payload & -> & Hexp & Hsub).
  rewrite login_claims_sub in Hsub.
  unfold auth.get_current_user, auth.decode_access_token, jwt.decode,
    bind, lift, get_db, raise, ret.
  rewrite N.eqb_refl. simpl. rewrite Hexp.
  destruct (_ <? _); [done|].
  rewrite Hsub. simpl. rewrite Hsub. simpl. by rewrite Hfound.
Qed.

(** C5, as the code has it. A token that [login] issued for a user who is
    still stored is resolved to that user at every instant up to its expiry
    instant, and beyond it until the whole second in which it expires is
    over; from the next whole second on it is refused with the 401
    error. *)
Theorem token_accepted_through_expiry_second (user : User.t)
    (expires_delta : option timedelta) (issued now : datetime) (w : World) :
  first (fun u => bool_decide (User.username u = User.username user))
        (users (db w)) = Some user ->
  let token :=
    auth.create_access_token SECRET_KEY (login_claims user) expires_delta issued in
  let expire := expiry_instant expires_delta issued in
  (now <= expire ->
   auth.get_current_user SECRET_KEY token now w = (Return user, w))
  /\ (jwt.timegm now <= jwt.timegm expire ->
      auth.get_current_user SECRET_KEY token now w = (Return user, w))
  /\ (jwt.timegm expire < jwt.timegm now ->
      auth.get_current_user SECRET_KEY token now w
      = (Raise (HTTPException 401 (py "Could not validate credentials")), w))
  /\ (expire + 1000000 <= now ->
      auth.get_current_user SECRET_KEY token now w
      = (Raise (HTTPException 401 (py "Could not validate credentials")), w)).
Proof.
  intros Hfound token expire. subst token expire.
  rewrite (get_current_user_login_token _ _ _ _ _ Hfound).
  unfold jwt.timegm.
  repeat split; intros Hle.
  - rewrite (proj2 (Z.ltb_ge _ _)); [done|]. by apply Z.div_le_mono.
  - by rewrite (proj2 (Z.ltb_ge _ _)).
  - by rewrite (proj2 (Z.ltb_lt _ _)).
  - rewrite (proj2 (Z.ltb_lt _ _)); [done|].
    apply Z.lt_le_trans with
      ((expiry_instant expires_delta issued + 1 * 1000000) / 1000000).
    + rewrite Z.div_add by done. lia.
    + apply Z.div_le_mono; lia.
Qed.

End Tokens.

(** [login] hands out the token of [login_claims] with the default
    expiry. *)
Lemma login_issues_token `{Bcrypt} `{Hs256} (SECRET_KEY : str)
    (form_username form_password : str) (now : datetime) (w : World)
    (user : User.t) :
  first (fun u => bool_decide (User.username u = form_username)) (users (db w))
  = Some user ->
  fst (auth.verify_password form_password
         (auth.IsStr (User.hashed_password user))) = Return true ->
  fst (login SECRET_KEY form_username form_password now w)
  = Return {| access_token :=
                auth.create_access_token SECRET_KEY (login_claims user) None now;
              token_type := py "bearer" |}.
Proof.
  intros Hfound Hverified.
  unfold login. run.
  rewrite Hfound. simpl. by rewrite Hverified.
Qed.

(** C5, as stated, fails within the expiry second: a token of one and a half
    seconds issued at the epoch expires at 1.5 s and is still resolved to
    its user at 1.7 s. *)
Lemma token_accepted_after_expiry_instant :
  let user := Instances.person 1 "alice" "patient" in
  let token :=
    @auth.create_access_token Instances.constant_hs256 (py "secret")
      (login_claims user) (Some 1500000) 0 in
  expiry_instant (Some 1500000) 0 = 1500000
  /\ 1500000 < 1700000
  /\ @auth.get_current_user Instances.constant_hs256 (py "secret") token
       1700000 Instances.clinic_world
     = (Return user, Instances.clinic_world).
Proof. vm_compute. auto. Qed.

(** The amended C5 at that token: resolved at 1.7 s, refused at 2 s. *)
Lemma token_accepted_through_expiry_second_witness :
  let user := Instances.person 1 "alice" "patient" in
  let token :=
    @auth.create_access_token Instances.constant_hs256 (py "secret")
      (login_claims user) (Some 1500000) 0 in
  @auth.get_current_user Instances.constant_hs256 (py "secret") token
    1700000 Instances.clinic_world
  = (Return user, Instances.clinic_world)
  /\ @auth.get_current_user Instances.constant_hs256 (py "secret") token
       2000000 Instances.clinic_world
     = (Raise (HTTPException 401 (py "Could not validate credentials")),
        Instances.clinic_world).
Proof.
  intros user token.
  destruct (@token_accepted_through_expiry_second Instances.constant_hs256
              (py "secret") user (Some 1500000) 0 1700000 Instances.clinic_world
              eq_refl) as (_ & Hin & _ & _).
  destruct (@token_accepted_through_expiry_second Instances.constant_hs256
              (py "secret") user (Some 1500000) 0 2000000 Instances.clinic_world
              eq_refl) as (_ & _ & Hout & _).
  split.
  - apply Hin. vm_compute. discriminate.
  - apply Hout. reflexivity.
Defined.

(** ** Appointments *)

(** Rewriting the row of one key leaves every lookup by key in place. *)
Lemma first_map_replace (key : Z) (row : Appointment.t) (rows : list Appointment.t)
    (k : Z) :
  Appointment.id row = key ->
  first (fun a => bool_decide (Appointment.id a = k))
        (List.map (fun r => if bool_decide (Appointment.id r = key) then row else r)
                  rows)
  = (fun r => if bool_decide (Appointment.id r = key) then row else r)
      <$> first (fun a => bool_decide (Appointment.id a = k)) rows.
Proof.
  intros Hrow. induction rows as [|r rows IH]; [done|].
  simpl. destruct (decide (Appointment.id r = key)) as [Hr|Hr].
  - rewrite (bool_decide_eq_true_2 _ Hr).
    replace (Appointment.id row) with (Appointment.id r) by congruence.
    case_bool_decide as Hk; [|apply IH].
    simpl. by rewrite bool_decide_eq_true_2.
  - rewrite (bool_decide_eq_false_2 _ Hr).
    case_bool_decide as Hk; [|apply IH].
    simpl. by rewrite bool_decide_eq_false_2.
Qed.

(** C7. For a request that asks for calendar sync and names an existing
    therapist: when the enabled service's [create_event] raises, the
    handler catches and logs the exception; when the service is the
    [GoogleCalendarService] and its Google API client raises, [create_event]
    itself catches and logs it.  Either way [create_appointment] returns the
    new appointment, its row is stored, and it carries no calendar event id
    and no sync time. *)
Theorem create_appointment_calendar_failure (appointment : AppointmentCreate.t)
    (current_user therapist : User.t) (now synced : datetime) (w : World)
    (e : exn) :
  AppointmentCreate.sync_with_calendar appointment = Some true ->
  first (fun u => bool_decide (User.id u = AppointmentCreate.therapist_id appointment)
                  && bool_decide (User.role u = py "therapist"))
        (users (db w)) = Some therapist ->
  (forall service : Calendar,
     enabled = true ->
     (forall calendar_data, fst (create_event calendar_data) = Raise e) ->
     exists row w',
       create_appointment appointment current_user now synced w = (Return row, w')
       /\ persisted_without_sync appointment current_user e w w' row)
  /\ (forall (api : GoogleApi) (self : GoogleCalendarService.t),
        GoogleCalendarService.enabled self = true ->
        GoogleCalendarService.service self = true ->
        (forall event, insert_event event = Raise e) ->
        exists row w',
          @create_appointment (calendar_service self) appointment current_user
            now synced w = (Return row, w')
          /\ persisted_without_sync appointment current_user e w w' row).
Proof.
  intros Hsync Htherapist. split.
  - intros service Henabled Hraise.
    unfold create_appointment. run.
    rewrite Htherapist, Hsync, Henabled. simpl.
    rewrite Hraise. simpl.
    eexists _, _. split; [reflexivity|].
    unfold persisted_without_sync. simpl.
    do 8 (split; [reflexivity|]).
    eexists. rewrite !elem_of_app, !elem_of_cons. left. right. left. reflexivity.
  - intros api self Henabled Hservice Hraise.
    unfold create_appointment. run.
    rewrite Htherapist, Hsync, Henabled. simpl.
    unfold GoogleCalendarService.create_event.
    rewrite Henabled, Hservice, Hraise. simpl.
    destruct e; simpl;
      (eexists _, _; split; [reflexivity|];
       unfold persisted_without_sync; simpl;
       do 8 (split; [reflexivity|]);
       eexists; rewrite !elem_of_app, !elem_of_cons; auto 10).
Qed.

(** C9. When the appointment exists and the requester is its patient, its
    assigned provider or an admin, [delete_appointment] answers with the
    cancellation message and keeps the row: the table has as many rows as
    before, the row found under the id has status [cancelled] and the
    patient, provider, datetime, duration, notes, calendar event id and
    every other column but [updated_at] it had, and the rows under every
    other id, like the other tables, are as they were. *)
Theorem delete_appointment_cancels (appointment_id : Z) (current_user : User.t)
    (now : datetime) (w : World) (appointment : Appointment.t) :
  first (fun a => bool_decide (Appointment.id a = appointment_id))
        (appointments (db w)) = Some appointment ->
  Appointment.user_id appointment = User.id current_user
  \/ Appointment.therapist_id appointment = User.id current_user
  \/ User.role current_user = py "admin" ->
  exists w' cancelled,
    delete_appointment appointment_id current_user now w
    = (Return {[ py "message" := PStr (py "Appointment cancelled successfully") ]}, w')
    /\ length (appointments (db w')) = length (appointments (db w))
    /\ first (fun a => bool_decide (Appointment.id a = appointment_id))
             (appointments (db w')) = Some cancelled
    /\ Appointment.status cancelled = py "cancelled"
    /\ Appointment.id cancelled = Appointment.id appointment
    /\ Appointment.user_id cancelled = Appointment.user_id appointment
    /\ Appointment.therapist_id cancelled = Appointment.therapist_id appointment
    /\ Appointment.appointment_datetime cancelled
       = Appointment.appointment_datetime appointment
    /\ Appointment.duration_minutes cancelled = Appointment.duration_minutes appointment
    /\ Appointment.notes cancelled = Appointment.notes appointment
    /\ Appointment.google_calendar_event_id cancelled
       = Appointment.google_calendar_event_id appointment
    /\ Appointment.sync_with_calendar cancelled
       = Appointment.sync_with_calendar appointment
    /\ Appointment.last_calendar_sync cancelled
       = Appointment.last_calendar_sync appointment
    /\ Appointment.appointment_type cancelled = Appointment.appointment_type appointment
    /\ Appointment.location cancelled = Appointment.location appointment
    /\ Appointment.reminder_sent cancelled = Appointment.reminder_sent appointment
    /\ Appointment.created_at cancelled = Appointment.created_at appointment
    /\ (forall other, other ≠ appointment_id ->
          first (fun a => bool_decide (Appointment.id a = other))
                (appointments (db w'))
          = first (fun a => bool_decide (Appointment.id a = other))
                  (appointments (db w)))
    /\ users (db w') = users (db w)
    /\ permissions (db w') = permissions (db w)
    /\ role_permissions (db w') = role_permissions (db w)
    /\ log w' = log w.
Proof.
  intros Hfound Hauth.
  destruct (first_Some _ _ _ Hfound) as [_ Hid].
  apply bool_decide_eq_true_1 in Hid.
  assert (bool_decide (Appointment.user_id appointment ≠ User.id current_user)
          && bool_decide (Appointment.therapist_id appointment ≠ User.id current_user)
          && bool_decide (User.role current_user ≠ py "admin") = false) as Hcheck.
  { rewrite !andb_false_iff.
    destruct Hauth as [Ha|[Ha|Ha]]; [left; left|left; right|right];
      apply bool_decide_eq_false_2; intros Hne; by apply Hne. }
  unfold delete_appointment, bind, get_db. simpl.
  rewrite Hfound, Hcheck. clear Hcheck. unfold commit_appointment.
  case_bool_decide as Hsame.
  - exists w, appointment. unfold ret. simpl.
    split; [done|]. split; [done|]. split; [done|].
    split; [by rewrite <- Hsame at 1|]. by repeat split.
  - eexists _, (touch (set_status appointment (py "cancelled")) now).
    unfold bind, get_db, put_db, ret. simpl.
    split; [reflexivity|]. simpl.
    split; [by rewrite length_map|].
    split.
    { rewrite first_map_replace by done. rewrite Hfound. simpl.
      by rewrite bool_decide_eq_true_2. }
    do 14 (split; [reflexivity|]).
    split; [|by repeat split].
    intros other Hother. rewrite first_map_replace by done.
    destruct (first (fun a => bool_decide (Appointment.id a = other))
                    (appointments (db w))) as [r|] eqn:Hr; [|done].
    apply first_Some in Hr as [_ Hr]. apply bool_decide_eq_true_1 in Hr.
    simpl. rewrite bool_decide_eq_false_2; [done|]. congruence.
Qed.


(** ** User status *)

Example is_active_is_no_column : py "is_active" ∉ User_columns.
Proof. apply (bool_decide_unpack _). by vm_compute. Qed.

(** C10. An admin who toggles the status of another, existing user with an
    [is_active] value gets the success payload, saying enabled or disabled
    by the truth value supplied, while the database is exactly what it was:
    [User] has no [is_active] column, so the commit writes nothing and the
    target's row keeps its id, username, email, hashed password, role and
    creation time. *)
Theorem toggle_user_status_writes_nothing (user_id : Z)
    (status_data : gmap str pyval) (current_user target : User.t)
    (new_status : pyval) (w : World) :
  User.role current_user = py "admin" ->
  first (fun u => bool_decide (User.id u = user_id)) (users (db w)) = Some target ->
  User.id target ≠ User.id current_user ->
  status_data !! py "is_active" = Some new_status ->
  new_status ≠ PNone ->
  exists payload w',
    toggle_user_status user_id status_data current_user w = (Return payload, w')
    /\ payload !! py "message"
       = Some (PStr (if truthy new_status
                     then py "User enabled successfully"
                     else py "User disabled successfully"))
    /\ payload !! py "user_id" = Some (PInt user_id)
    /\ payload !! py "is_active" = Some new_status
    /\ db w' = db w
    /\ first (fun u => bool_decide (User.id u = user_id)) (users (db w'))
       = Some target
    /\ log w'
       = log w ++ [(INFO, [Lit "User "; Val (PStr (User.username target));
                           Lit " ";
                           Val (PStr (if truthy new_status
                                      then py "enabled" else py "disabled"));
                           Lit " by ";
                           Val (PStr (User.username current_user))])].
Proof.
  intros Hadmin Hfound Hother Hstatus Hsome.
  unfold toggle_user_status.
  rewrite bool_decide_eq_false_2 by (by intros Hne; apply Hne).
  unfold bind at 1. unfold get_db at 1. rewrite Hfound. simpl.
  rewrite (bool_decide_eq_false_2 _ Hother), Hstatus. simpl.
  rewrite (bool_decide_eq_false_2 _ Hsome).
  unfold commit_user, set_instance_attribute. simpl.
  rewrite bool_decide_eq_true_2 by done.
  unfold bind, ret, logger. simpl.
  eexists _, _. split; [reflexivity|]. simpl.
  split; [by destruct (truthy new_status)|].
  split; [done|]. split; [done|]. split; [done|]. split; [done|]. done.
Qed.

(** ** The statements at concrete requests *)

Module Examples.
Import Instances.

Example utf8_encode_two_bytes : utf8_encode [0xE9%N] = Return [0xC3; 0xA9]%N.
Proof. reflexivity. Qed.

Example utf8_encode_three_bytes :
  utf8_encode [0x20AC%N] = Return [0xE2; 0x82; 0xAC]%N.
Proof. reflexivity. Qed.

Example utf8_encode_four_bytes :
  utf8_encode [0x1F600%N] = Return [0xF0; 0x9F; 0x98; 0x80]%N.
Proof. reflexivity. Qed.

Example utf8_encode_surrogate :
  utf8_encode (py "ab" ++ [0xD800%N]) = Raise UnicodeEncodeError.
Proof. reflexivity. Qed.

Example utf8_decode_four_bytes :
  utf8_decode [0x61; 0xF0; 0x9F; 0x98; 0x80]%N = Return [0x61; 0x1F600]%N.
Proof. reflexivity. Qed.

Example utf8_decode_overlong : utf8_decode [0xC0; 0x80]%N = Raise UnicodeDecodeError.
Proof. reflexivity. Qed.

Example utf8_decode_surrogate :
  utf8_decode [0xED; 0xA0; 0x80]%N = Raise UnicodeDecodeError.
Proof. reflexivity. Qed.

Example validate_username_valid :
  @auth.validate_username ascii_tables (py "alice_01") = (true, py "").
Proof. reflexivity. Qed.

Example validate_username_leading_digit :
  @auth.validate_username ascii_tables (py "1alice")
  = (false, py "Username must start with a letter").
Proof. reflexivity. Qed.

Example validate_password_strength_valid :
  @auth.validate_password_strength ascii_tables (py "Passw0rd1") = (true, py "").
Proof. reflexivity. Qed.

Example delete_appointment_forbidden :
  delete_appointment 7 (person 4 "carol" "patient") 30 clinic_world
  = (Raise (HTTPException 403 (py "Not authorized to delete this appointment")),
     clinic_world).
Proof. reflexivity. Qed.

Example delete_appointment_missing :
  delete_appointment 8 (person 3 "root" "admin") 30 clinic_world
  = (Raise (HTTPException 404 (py "Appointment not found")), clinic_world).
Proof. reflexivity. Qed.

Example toggle_user_status_self :
  toggle_user_status 3 {[ py "is_active" := PBool false ]}
    (person 3 "root" "admin") clinic_world
  = (Raise (HTTPException 400 (py "Cannot disable your own account")),
     clinic_world).
Proof. reflexivity. Qed.

Example has_permission_patient :
  has_permission (person 1 "alice" "patient") (py "appointments.view_own") clinic = true.
Proof. reflexivity. Qed.

Example has_permission_therapist :
  has_permission (person 2 "bob" "therapist") (py "appointments.view_own") clinic = false.
Proof. reflexivity. Qed.

Example has_permission_admin_empty_catalog :
  has_permission (person 3 "root" "admin") (py "anything") empty_db = true.
Proof. reflexivity. Qed.

Example can_access_appointment_unrelated :
  can_access_appointment (person 4 "carol" "patient") 7 clinic = false.
Proof. reflexivity. Qed.

Example can_access_appointment_admin_missing :
  can_access_appointment (person 3 "root" "admin") 8 clinic = false.
Proof. reflexivity. Qed.

(** C3 at the password [Passw0rd1], and at forty letters [é] (eighty bytes)
    against their first thirty-six. *)
Lemma verify_password_get_password_hash_witness :
  @auth.get_password_hash hex_bcrypt (py "Passw0rd1") []
  = Return (py "$hex$506173737730726431")
  /\ @auth.verify_password hex_bcrypt (py "Passw0rd1")
       (auth.IsStr (py "$hex$506173737730726431")) = (Return true, [])
  /\ (@auth.get_password_hash hex_bcrypt (repeat 233%N 40) []
      = @auth.get_password_hash hex_bcrypt (repeat 233%N 36) []
      /\ forall h, @auth.verify_password hex_bcrypt (repeat 233%N 40) h
                   = @auth.verify_password hex_bcrypt (repeat 233%N 36) h).
Proof.
  destruct (@verify_password_get_password_hash hex_bcrypt [])
    as (Hshort & Hlong & _).
  split; [|split].
  - apply (Hshort (py "Passw0rd1") (py "Passw0rd1") (py "$hex$506173737730726431"));
      [reflexivity | simpl; lia | reflexivity
      | repeat (constructor; [reflexivity|]); constructor | reflexivity].
  - apply (Hshort (py "Passw0rd1") (py "Passw0rd1") (py "$hex$506173737730726431"));
      [reflexivity | simpl; lia | reflexivity
      | repeat (constructor; [reflexivity|]); constructor | reflexivity].
  - apply (Hlong (repeat 233%N 40) (repeat 233%N 36)
                 (concat (repeat [195; 169]%N 40)));
      [reflexivity | simpl; lia | reflexivity].
Defined.

(** C6 at the password [short]. *)
Lemma register_user_weak_password_witness :
  let user := {| UserCreate.username := py "alice";
                 UserCreate.email := py "alice@example.com";
                 UserCreate.password := py "short";
                 UserCreate.role := py "patient" |} in
  @weak_password ascii_tables (py "short")
  /\ exists message,
       message ≠ []
       /\ @auth.validate_password_strength ascii_tables (py "short")
          = (false, message)
       /\ @register_user ascii_tables hex_bcrypt user [] 5 empty_world
          = (Raise (HTTPException 400 message),
             {| db := empty_db;
                log := [(INFO, [Lit "Registering new user: ";
                                Val (PStr (py "alice"))])] |}).
Proof.
  intros user.
  assert (@weak_password ascii_tables (py "short")) as Hweak
    by (left; simpl; lia).
  split; [exact Hweak|].
  exact (@register_user_weak_password ascii_tables hex_bcrypt user [] 5
           empty_world Hweak).
Defined.

(** C7 at a booking with the therapist of the clinic, with a service that
    raises and with the Google service over a client that raises. *)
Lemma create_appointment_calendar_failure_witness :
  (exists row w',
     @create_appointment failing_calendar booking (person 1 "alice" "patient")
       20 21 clinic_world = (Return row, w')
     /\ appointments (db w') = [visit; row]
     /\ Appointment.google_calendar_event_id row = None)
  /\ (exists row w',
        @create_appointment
          (@calendar_service failing_api
             {| GoogleCalendarService.enabled := true;
                GoogleCalendarService.service := true |})
          booking (person 1 "alice" "patient") 20 21 clinic_world
        = (Return row, w')
        /\ appointments (db w') = [visit; row]
        /\ Appointment.google_calendar_event_id row = None).
Proof.
  split.
  - destruct (create_appointment_calendar_failure booking
                (person 1 "alice" "patient") (person 2 "bob" "therapist")
                20 21 clinic_world (LibraryError "ConnectionError")
                eq_refl eq_refl) as [Hservice _].
    destruct (Hservice failing_calendar eq_refl (fun _ => eq_refl))
      as (row & w' & Hrun & Hrows & _ & Hevent & _).
    exists row, w'. auto.
  - destruct (create_appointment_calendar_failure booking
                (person 1 "alice" "patient") (person 2 "bob" "therapist")
                20 21 clinic_world HttpError eq_refl eq_refl) as [_ Hclient].
    destruct (Hclient failing_api
                {| GoogleCalendarService.enabled := true;
                   GoogleCalendarService.service := true |}
                eq_refl eq_refl (fun _ => eq_refl))
      as (row & w' & Hrun & Hrows & _ & Hevent & _).
    exists row, w'. auto.
Defined.

(** C9 at the patient of the clinic's appointment. *)
Lemma delete_appointment_cancels_witness :
  exists w' cancelled,
    delete_appointment 7 (person 1 "alice" "patient") 30 clinic_world
    = (Return {[ py "message" := PStr (py "Appointment cancelled successfully") ]}, w')
    /\ first (fun a => bool_decide (Appointment.id a = 7)) (appointments (db w'))
       = Some cancelled
    /\ Appointment.status cancelled = py "cancelled"
    /\ Appointment.notes cancelled = Some (py "first visit")
    /\ Appointment.google_calendar_event_id cancelled = Some (py "evt1").
Proof.
  destruct (delete_appointment_cancels 7 (person 1 "alice" "patient") 30
              clinic_world visit eq_refl (or_introl eq_refl))
    as (w' & cancelled & Hrun & _ & Hrow & Hstatus & _ & _ & _ & _ & _
        & Hnotes & Hevent & _).
  exists w', cancelled. auto.
Defined.

(** C10 at the admin of the clinic disabling a patient. *)
Lemma toggle_user_status_writes_nothing_witness :
  exists payload w',
    toggle_user_status 1 {[ py "is_active" := PBool false ]}
      (person 3 "root" "admin") clinic_world = (Return payload, w')
    /\ payload !! py "message" = Some (PStr (py "User disabled successfully"))
    /\ db w' = clinic.
Proof.
  destruct (toggle_user_status_writes_nothing 1 {[ py "is_active" := PBool false ]}
              (person 3 "root" "admin") (person 1 "alice" "patient")
              (PBool false) clinic_world)
    as (payload & w' & Hrun & Hmsg & _ & _ & Hdb & _);
    [reflexivity | reflexivity | discriminate | reflexivity | discriminate |].
  exists payload, w'. auto.
Defined.

End Examples.

(** * Further properties of the code *)

(** The statements below are about the handlers over the store of the
    models above: a commit keeps the rows as the handler wrote them.  The
    sizes of the columns and the foreign keys, which a backend may enforce
    at the commit, are not part of the store; where a handler stores a key
    that it did not look up, the statement asks for a stored user. *)

(** ** Permissions and modules *)

Lemma elem_of_filter_bool {A} (f : A -> bool) (l : list A) (x : A) :
  x ∈ List.filter f l <-> x ∈ l /\ f x = true.
Proof. by rewrite !list_elem_of_In, filter_In. Qed.

(** [get_permissions] and [has_permission] agree for every role but admin:
    a name is listed exactly when it is granted.  For an admin the list is
    the catalog, while [has_permission] grants every name, listed or not. *)
Theorem get_permissions_lists_granted (user : User.t) (d : Db) (n : str) :
  (User.role user ≠ py "admin" ->
   (n ∈ get_permissions user d <-> has_permission user n d = true))
  /\ (User.role user = py "admin" ->
      (n ∈ get_permissions user d
       <-> exists p, p ∈ permissions d /\ Permission.name p = n)
      /\ has_permission user n d = true).
Proof.
  split.
  - intros Hrole. rewrite has_permission_non_admin by done.
    unfold get_permissions, granted. rewrite bool_decide_eq_false_2 by done.
    rewrite list_elem_of_fmap. split.
    + intros ([p rp] & -> & Hin). apply elem_of_filter_bool in Hin as [Hin Hr].
      apply elem_of_permission_join in Hin as (Hp & Hrp & Hk).
      apply bool_decide_eq_true_1 in Hr. by exists rp, p.
    + intros (rp & p & Hrp & Hp & Hk & Hr & Hn). exists (p, rp).
      split; [done|]. apply elem_of_filter_bool. split.
      * by apply elem_of_permission_join.
      * by apply bool_decide_eq_true_2.
  - intros Hrole. unfold get_permissions, has_permission.
    rewrite !bool_decide_eq_true_2 by done. split; [|done].
    rewrite list_elem_of_fmap. split.
    + intros (p & -> & Hp). by exists p.
    + intros (p & Hp & <-). by exists p.
Qed.

(** For a role other than admin and a catalog whose permission names are
    unique, a module is accessible exactly when it holds a permission that
    [has_permission] grants. *)
Theorem can_access_module_iff_some_permission (user : User.t)
    (module_name : str) (d : Db) :
  User.role user ≠ py "admin" ->
  NoDup (Permission.name <$> permissions d) ->
  can_access_module user module_name d = true
  <-> exists p, p ∈ permissions d
                /\ Permission.module p = module_name
                /\ has_permission user (Permission.name p) d = true.
Proof.
  intros Hrole Hnames. unfold can_access_module.
  rewrite bool_decide_eq_false_2 by done.
  match goal with |- context [first ?f ?l] =>
    pose proof (first_is_Some f l) as Hsome; destruct (first f l) as [[p rp]|] eqn:Hf
  end.
  - split; [intros _|done].
    apply first_Some in Hf as [Hin Hp].
    apply elem_of_permission_join in Hin as (Hp1 & Hrp & Hk).
    apply andb_true_iff in Hp as [Hr Hm]. apply bool_decide_eq_true_1 in Hr, Hm.
    exists p. split; [done|]. split; [done|].
    apply has_permission_non_admin; [done|]. by exists rp, p.
  - split; [done|]. intros (p & Hp & Hm & Hgranted).
    apply has_permission_non_admin in Hgranted
      as (rp & p' & Hrp & Hp' & Hk & Hr & Hn); [|done].
    assert (p' = p) as ->.
    { apply list_elem_of_lookup in Hp as [i Hi], Hp' as [j Hj].
      assert (i = j) as <-; [|congruence].
      eapply NoDup_lookup; [exact Hnames| |];
        rewrite list_lookup_fmap; [by rewrite Hi | by rewrite Hj; simpl; rewrite Hn]. }
    assert (is_Some (@None (Permission.t * RolePermission.t))) as [? ?]; [|done].
    apply Hsome. exists (p, rp). split.
    + by apply elem_of_permission_join.
    + by rewrite !bool_decide_eq_true_2.
Qed.


(** [can_access_user_data] answers true for an admin, for the user's own
    data, and for a therapist, physician or health coach exactly when an
    appointment names the requester as provider and the target as patient;
    every other requester is refused, whatever appointments exist. *)
Theorem can_access_user_data_spec (current_user : User.t)
    (target_user_id : Z) (d : Db) :
  can_access_user_data current_user target_user_id d = true
  <-> User.role current_user = py "admin"
      \/ User.id current_user = target_user_id
      \/ (User.role current_user
            ∈ [py "therapist"; py "physician"; py "health_coach"]
          /\ exists a, a ∈ appointments d
                       /\ Appointment.therapist_id a = User.id current_user
                       /\ Appointment.user_id a = target_user_id).
Proof.
  unfold can_access_user_data.
  case_bool_decide as Hadmin; [naive_solver|].
  case_bool_decide as Hself; [naive_solver|].
  case_bool_decide as Hprovider; [|naive_solver].
  match goal with |- context [first ?f ?l] =>
    pose proof (first_is_Some f l) as Hsome; destruct (first f l) as [a|] eqn:Hf
  end.
  - apply first_Some in Hf as [Hin Hp].
    apply andb_true_iff in Hp as [Ht Hu]. apply bool_decide_eq_true_1 in Ht, Hu.
    naive_solver.
  - split; [done|]. intros [?|[?|[_ (a & Hin & Ht & Hu)]]]; [done|done|].
    assert (is_Some (@None Appointment.t)) as [? ?]; [|done].
    apply Hsome. exists a. split; [done|]. by rewrite !bool_decide_eq_true_2.
Qed.

(** ** Reading and changing appointments *)

Lemma party_check (current_user : User.t) (a : Appointment.t) :
  bool_decide (Appointment.user_id a ≠ User.id current_user)
  && bool_decide (Appointment.therapist_id a ≠ User.id current_user)
  && bool_decide (User.role current_user ≠ py "admin")
  = negb (bool_decide (party current_user a)).
Proof.
  unfold party.
  destruct (decide (Appointment.user_id a = User.id current_user)) as [H1|H1];
  destruct (decide (Appointment.therapist_id a = User.id current_user)) as [H2|H2];
  destruct (decide (User.role current_user = py "admin")) as [H3|H3];
  repeat first [rewrite (bool_decide_eq_true_2 (_ ≠ _)) by done
               |rewrite (bool_decide_eq_false_2 (_ ≠ _)) by (by intros Hne)];
  simpl; symmetry;
  first [rewrite bool_decide_eq_true_2 by tauto
        |rewrite bool_decide_eq_false_2 by tauto]; reflexivity.
Qed.

Lemma can_access_appointment_party (current_user : User.t) (a : Appointment.t)
    (d : Db) :
  first (fun r => bool_decide (Appointment.id r = Appointment.id a))
        (appointments d) = Some a ->
  can_access_appointment current_user (Appointment.id a) d
  = bool_decide (party current_user a).
Proof.
  intros Hfound. unfold can_access_appointment, party. rewrite Hfound.
  destruct (decide (Appointment.user_id a = User.id current_user)) as [H1|H1];
  destruct (decide (Appointment.therapist_id a = User.id current_user)) as [H2|H2];
  destruct (decide (User.role current_user = py "admin")) as [H3|H3];
  repeat first [rewrite (bool_decide_eq_true_2 (_ = _)) by done
               |rewrite (bool_decide_eq_false_2 (_ = _)) by done];
  simpl; symmetry;
  first [rewrite bool_decide_eq_true_2 by tauto
        |rewrite bool_decide_eq_false_2 by tauto]; reflexivity.
Qed.

(** [get_appointment] never changes the world.  A missing id is answered
    404 for every requester; an existing appointment is returned to its
    patient, its provider and admins, and answered 403 for anyone else. *)
Theorem get_appointment_spec (appointment_id : Z) (current_user : User.t)
    (w : World) :
  snd (get_appointment appointment_id current_user w) = w
  /\ match first (fun a => bool_decide (Appointment.id a = appointment_id))
                 (appointments (db w)) with
     | None =>
         fst (get_appointment appointment_id current_user w)
         = Raise (HTTPException 404 (py "Appointment not found"))
     | Some a =>
         (party current_user a ->
          fst (get_appointment appointment_id current_user w) = Return a)
         /\ (~ party current_user a ->
             fst (get_appointment appointment_id current_user w)
             = Raise (HTTPException 403
                        (py "Not authorized to view this appointment")))
     end.
Proof.
  unfold get_appointment. run.
  destruct (first _ (appointments (db w))) as [a|] eqn:Hfound; [|done].
  destruct (first_Some _ _ _ Hfound) as [_ Hid].
  apply bool_decide_eq_true_1 in Hid. subst appointment_id.
  rewrite (can_access_appointment_party _ _ _ Hfound).
  case_bool_decide as Hparty; simpl; split; tauto.
Qed.

(** With unique appointment keys, [get_my_appointments], for a user
    holding [appointments.view_own], answers exactly the stored
    appointments of which the user is patient or provider, and each of them
    is one that [get_appointment] returns to that user. *)
Theorem get_my_appointments_spec (current_user : User.t) (w : World) :
  has_permission current_user (py "appointments.view_own") (db w) = true ->
  NoDup (Appointment.id <$> appointments (db w)) ->
  exists mine,
    get_my_appointments current_user w = (Return mine, w)
    /\ (forall a, a ∈ mine
                  <-> a ∈ appointments (db w)
                      /\ (Appointment.user_id a = User.id current_user
                          \/ Appointment.therapist_id a = User.id current_user))
    /\ (forall a, a ∈ mine ->
                  get_appointment (Appointment.id a) current_user w = (Return a, w)).
Proof.
  intros Hperm Hkeys. unfold get_my_appointments. run. rewrite Hperm. simpl.
  eexists. split; [reflexivity|].
  assert (forall a,
    a ∈ List.filter
          (fun a => bool_decide (Appointment.user_id a = User.id current_user)
                    || bool_decide (Appointment.therapist_id a = User.id current_user))
          (appointments (db w))
    <-> a ∈ appointments (db w)
        /\ (Appointment.user_id a = User.id current_user
            \/ Appointment.therapist_id a = User.id current_user)) as Hmine.
  { intros a. rewrite elem_of_filter_bool, orb_true_iff.
    by rewrite !bool_decide_eq_true. }
  split; [exact Hmine|].
  intros a Ha. apply Hmine in Ha as [Hin Hparty].
  pose proof (first_by_key Appointment.id _ a Hkeys Hin) as Hfound.
  unfold get_appointment. run. rewrite Hfound.
  rewrite (can_access_appointment_party _ _ _ Hfound).
  rewrite bool_decide_eq_true_2; [done|]. unfold party. tauto.
Qed.

(** The list and the single read are guarded differently: a patient whose
    role was granted nothing in the catalog is refused the list of own
    appointments with 403, yet reads each of them by id. *)
Theorem own_appointment_read_without_permission (current_user : User.t)
    (a : Appointment.t) (w : World) :
  has_permission current_user (py "appointments.view_own") (db w) = false ->
  first (fun r => bool_decide (Appointment.id r = Appointment.id a))
        (appointments (db w)) = Some a ->
  Appointment.user_id a = User.id current_user ->
  get_my_appointments current_user w
  = (Raise (HTTPException 403 (py "Insufficient permissions to view appointments")),
     w)
  /\ get_appointment (Appointment.id a) current_user w = (Return a, w).
Proof.
  intros Hperm Hfound Hpatient. split.
  - unfold get_my_appointments. run. by rewrite Hperm.
  - unfold get_appointment. run. rewrite Hfound.
    rewrite (can_access_appointment_party _ _ _ Hfound).
    rewrite bool_decide_eq_true_2; [done|]. by left.
Qed.

Lemma map_replace_keys (key : Z) (row : Appointment.t)
    (rows : list Appointment.t) :
  Appointment.id row = key ->
  Appointment.id
    <$> List.map (fun r => if bool_decide (Appointment.id r = key) then row else r)
                 rows
  = Appointment.id <$> rows.
Proof.
  intros Hrow. induction rows as [|r rows IH]; [done|].
  simpl in *. f_equal; [case_bool_decide; congruence | exact IH].
Qed.

Lemma map_replace_Forall (P : Appointment.t -> Prop) (key : Z)
    (row : Appointment.t) (rows : list Appointment.t) :
  P row -> Forall P rows ->
  Forall P (List.map (fun r => if bool_decide (Appointment.id r = key)
                               then row else r) rows).
Proof.
  intros Hrow. induction 1 as [|r rows Hr _ IH]; simpl; constructor; [|done].
  by case_bool_decide.
Qed.

(** What [commit_appointment] leaves behind for a loaded row that was
    changed without touching its key. *)
Lemma commit_appointment_effect (loaded current : Appointment.t)
    (now : datetime) (w : World) :
  first (fun a => bool_decide (Appointment.id a = Appointment.id loaded))
        (appointments (db w)) = Some loaded ->
  Appointment.id current = Appointment.id loaded ->
  exists stored w',
    commit_appointment loaded current now w = (Return stored, w')
    /\ (current = loaded /\ stored = loaded /\ w' = w
        \/ current ≠ loaded /\ stored = touch current now)
    /\ first (fun a => bool_decide (Appointment.id a = Appointment.id loaded))
             (appointments (db w')) = Some stored
    /\ (forall other, other ≠ Appointment.id loaded ->
          first (fun a => bool_decide (Appointment.id a = other))
                (appointments (db w'))
          = first (fun a => bool_decide (Appointment.id a = other))
                  (appointments (db w)))
    /\ Appointment.id <$> appointments (db w')
       = Appointment.id <$> appointments (db w)
    /\ (forall P : Appointment.t -> Prop,
          P stored -> Forall P (appointments (db w)) ->
          Forall P (appointments (db w')))
    /\ users (db w') = users (db w)
    /\ permissions (db w') = permissions (db w)
    /\ role_permissions (db w') = role_permissions (db w)
    /\ users_seq (db w') = users_seq (db w)
    /\ appointments_seq (db w') = appointments_seq (db w)
    /\ log w' = log w.
Proof.
  intros Hfound Hid. unfold commit_appointment.
  case_bool_decide as Hsame.
  - exists loaded, w. subst current. unfold ret.
    split; [done|]. split; [by left|]. by repeat split.
  - exists (touch current now). eexists. run.
    split; [reflexivity|]. simpl. split; [by right|].
    split.
    { rewrite first_map_replace by done. rewrite Hfound. simpl.
      by rewrite bool_decide_eq_true_2. }
    split.
    { intros other Hother. rewrite first_map_replace by done.
      destruct (first (fun a => bool_decide (Appointment.id a = other))
                      (appointments (db w))) as [r|] eqn:Hr; [|done].
      apply first_Some in Hr as [_ Hr]. apply bool_decide_eq_true_1 in Hr.
      simpl. rewrite bool_decide_eq_false_2; [done|]. congruence. }
    split; [by apply map_replace_keys|].
    split; [intros P HP Hall; by apply map_replace_Forall|].
    by repeat split.
Qed.

Lemma first_key {A} (key : A -> Z) (k : Z) (rows : list A) (a : A) :
  first (fun r => bool_decide (key r = k)) rows = Some a ->
  key a = k
  /\ first (fun r => bool_decide (key r = key a)) rows = Some a.
Proof.
  intros Hfound. destruct (first_Some _ _ _ Hfound) as [_ Hk].
  apply bool_decide_eq_true_1 in Hk. by subst k.
Qed.

(** [delete_appointment] is the status update to [cancelled]: on every
    request the two leave the same world, succeed together, and fail
    together with the same status code. *)
Theorem delete_appointment_as_status_update (appointment_id : Z)
    (current_user : User.t) (now : datetime) (w : World) :
  let cancel := delete_appointment appointment_id current_user now w in
  let update :=
    update_appointment_status appointment_id
      {[ py "status" := PStr (py "cancelled") ]} current_user now w in
  snd cancel = snd update
  /\ ((exists r, fst cancel = Return r) <-> (exists r, fst update = Return r))
  /\ (forall code,
        (exists detail, fst cancel = Raise (HTTPException code detail))
        <-> (exists detail, fst update = Raise (HTTPException code detail))).
Proof.
  unfold delete_appointment, update_appointment_status. run.
  destruct (first _ (appointments (db w))) as [a|] eqn:Hfound; simpl.
  2:{ split; [done|]. split; [naive_solver|]. split; eauto. }
  destruct (_ && _ && _); simpl.
  { split; [done|]. split; [naive_solver|].
    intros code. split; intros [detail [= <- <-]]; eauto. }
  rewrite lookup_singleton_eq. simpl.
  destruct (commit_appointment a _ now w) as [[stored|e] w']; simpl.
  - split; [done|]. split; [split; eauto|naive_solver].
  - split; [done|]. split; [naive_solver|]. split; eauto.
Qed.

Section StatusUpdates.
Variables (appointment_id : Z) (current_user : User.t) (now : datetime)
  (w : World) (appointment : Appointment.t).
Hypothesis Hfound :
  first (fun a => bool_decide (Appointment.id a = appointment_id))
        (appointments (db w)) = Some appointment.
Hypothesis Hparty : party current_user appointment.

(** A status update by a party to the appointment, to one of the five
    statuses: what it answers and what it stores. *)
Lemma update_appointment_status_run (s : str) (status_update : gmap str pyval) :
  status_update !! py "status" = Some (PStr s) ->
  s ∈ valid_statuses ->
  exists stored w',
    update_appointment_status appointment_id status_update current_user now w
    = (Return (list_to_map
                 [(py "message", PStr (py "Status updated successfully"));
                  (py "status", PStr s)]), w')
    /\ commit_appointment appointment (set_status appointment s) now w
       = (Return stored, w').
Proof.
  intros Hstatus Hvalid.
  destruct (first_key _ _ _ _ Hfound) as [Hid Hfound'].
  destruct (commit_appointment_effect appointment (set_status appointment s)
              now w Hfound' eq_refl) as (stored & w' & Hcommit & _).
  exists stored, w'. split; [|done].
  unfold update_appointment_status. run. rewrite Hfound, party_check.
  rewrite (bool_decide_eq_true_2 _ Hparty), Hstatus. simpl.
  rewrite (bool_decide_eq_true_2 _ Hvalid). simpl. by rewrite Hcommit.
Qed.

Lemma delete_appointment_run :
  exists stored w',
    delete_appointment appointment_id current_user now w
    = (Return {[ py "message" := PStr (py "Appointment cancelled successfully") ]},
       w')
    /\ commit_appointment appointment (set_status appointment (py "cancelled")) now w
       = (Return stored, w').
Proof.
  destruct (first_key _ _ _ _ Hfound) as [Hid Hfound'].
  destruct (commit_appointment_effect appointment
              (set_status appointment (py "cancelled")) now w Hfound' eq_refl)
    as (stored & w' & Hcommit & _).
  exists stored, w'. split; [|done].
  unfold delete_appointment. run. rewrite Hfound, party_check.
  rewrite (bool_decide_eq_true_2 _ Hparty). simpl. by rewrite Hcommit.
Qed.

Lemma update_appointment_run (appointment_update : AppointmentUpdate.t) :
  update_appointment appointment_id appointment_update current_user now w
  = commit_appointment appointment (assign_update appointment appointment_update)
      now w.
Proof.
  unfold update_appointment. run. rewrite Hfound, party_check.
  by rewrite (bool_decide_eq_true_2 _ Hparty).
Qed.

End StatusUpdates.

(** What the three handlers that rewrite an appointment leave behind: the
    world as it was, or the commit of the changed row. *)
Lemma update_appointment_status_worlds (appointment_id : Z)
    (status_update : gmap str pyval) (current_user : User.t) (now : datetime)
    (w : World) :
  snd (update_appointment_status appointment_id status_update current_user now w)
  = w
  \/ exists a s,
       first (fun r => bool_decide (Appointment.id r = appointment_id))
             (appointments (db w)) = Some a
       /\ s ∈ valid_statuses
       /\ snd (update_appointment_status appointment_id status_update
                 current_user now w)
          = snd (commit_appointment a (set_status a s) now w).
Proof.
  unfold update_appointment_status. run.
  destruct (first _ (appointments (db w))) as [a|] eqn:Hfound; [|by left].
  destruct (_ && _ && _); [by left|].
  destruct (default PNone (status_update !! py "status")) as [| | |s|];
    simpl; try by left.
  case_bool_decide as Hvalid; simpl; [|by left].
  right. exists a, s. split; [done|]. split; [done|].
  by destruct (commit_appointment a _ now w) as [[?|?] ?].
Qed.

Lemma delete_appointment_worlds (appointment_id : Z) (current_user : User.t)
    (now : datetime) (w : World) :
  snd (delete_appointment appointment_id current_user now w) = w
  \/ exists a,
       first (fun r => bool_decide (Appointment.id r = appointment_id))
             (appointments (db w)) = Some a
       /\ snd (delete_appointment appointment_id current_user now w)
          = snd (commit_appointment a (set_status a (py "cancelled")) now w).
Proof.
  unfold delete_appointment. run.
  destruct (first _ (appointments (db w))) as [a|] eqn:Hfound; [|by left].
  destruct (_ && _ && _); [by left|].
  right. exists a. split; [done|].
  by destruct (commit_appointment a _ now w) as [[?|?] ?].
Qed.

Lemma update_appointment_worlds (appointment_id : Z)
    (appointment_update : AppointmentUpdate.t) (current_user : User.t)
    (now : datetime) (w : World) :
  snd (update_appointment appointment_id appointment_update current_user now w)
  = w
  \/ exists a,
       first (fun r => bool_decide (Appointment.id r = appointment_id))
             (appointments (db w)) = Some a
       /\ update_appointment appointment_id appointment_update current_user now w
          = commit_appointment a (assign_update a appointment_update) now w.
Proof.
  unfold update_appointment. run.
  destruct (first _ (appointments (db w))) as [a|] eqn:Hfound; [|by left].
  destruct (_ && _ && _); [by left|].
  right. by exists a.
Qed.

(** A commit of a row whose key is unchanged and whose status is valid
    keeps the keys of the table and the validity of the statuses. *)
Lemma commit_appointment_keeps (a current : Appointment.t) (k : Z)
    (now : datetime) (w : World) :
  first (fun r => bool_decide (Appointment.id r = k)) (appointments (db w))
  = Some a ->
  Appointment.id current = Appointment.id a ->
  let w' := snd (commit_appointment a current now w) in
  (appointments_wf (db w) -> appointments_wf (db w'))
  /\ (Appointment.status current ∈ valid_statuses ->
      statuses_valid (db w) -> statuses_valid (db w'))
  /\ users (db w') = users (db w)
  /\ users_seq (db w') = users_seq (db w).
Proof.
  intros Hfound Hid.
  destruct (first_key _ _ _ _ Hfound) as [Hk Hfound'].
  destruct (first_Some _ _ _ Hfound) as [Hin _].
  destruct (commit_appointment_effect a current now w Hfound' Hid)
    as (stored & w' & -> & Hstored & _ & _ & Hkeys & Hall & Husers & _ & _
        & Huseq & Hseq & _).
  simpl. split; [|split; [|done]].
  - intros [Hnd Hle]. split; [by rewrite Hkeys|].
    rewrite Hseq. apply Hall; [|done].
    rewrite List.Forall_forall in Hle. apply list_elem_of_In in Hin.
    destruct Hstored as [(_ & -> & _)|[_ ->]]; simpl; [by apply Hle|].
    rewrite Hid. by apply Hle.
  - intros Hvalid Hall'. apply Hall; [|done].
    unfold statuses_valid in Hall'. rewrite List.Forall_forall in Hall'.
    apply list_elem_of_In in Hin.
    destruct Hstored as [(_ & -> & _)|[_ ->]]; simpl; [by apply Hall'|done].
Qed.

Lemma map_replace_absent (key : Z) (row : Appointment.t)
    (rows : list Appointment.t) :
  Forall (fun r => Appointment.id r ≠ key) rows ->
  List.map (fun r => if bool_decide (Appointment.id r = key) then row else r) rows
  = rows.
Proof.
  induction 1 as [|r rows Hr _ IH]; [done|].
  simpl. by rewrite IH, bool_decide_eq_false_2.
Qed.

(** Every way [create_appointment] can end, for a table whose keys are
    not beyond the sequence: refused with 404 and nothing stored, or the
    new row appended under the next key, synced or not. *)
Lemma create_appointment_worlds `{Calendar} (appointment : AppointmentCreate.t)
    (current_user : User.t) (now synced : datetime) (w : World) :
  Forall (fun a => Appointment.id a <= appointments_seq (db w))
         (appointments (db w)) ->
  let run := create_appointment appointment current_user now synced w in
  (fst run = Raise (HTTPException 404 (py "Therapist not found"))
   /\ db (snd run) = db w
   /\ first (fun u => bool_decide (User.id u = AppointmentCreate.therapist_id appointment)
                      && bool_decide (User.role u = py "therapist"))
            (users (db w)) = None)
  \/ exists row,
       fst run = Return row
       /\ is_Some (first (fun u => bool_decide
                                     (User.id u = AppointmentCreate.therapist_id appointment)
                                   && bool_decide (User.role u = py "therapist"))
                         (users (db w)))
       /\ appointments (db (snd run)) = appointments (db w) ++ [row]
       /\ appointments_seq (db (snd run)) = appointments_seq (db w) + 1
       /\ users (db (snd run)) = users (db w)
       /\ permissions (db (snd run)) = permissions (db w)
       /\ role_permissions (db (snd run)) = role_permissions (db w)
       /\ users_seq (db (snd run)) = users_seq (db w)
       /\ Appointment.id row = appointments_seq (db w) + 1
       /\ Appointment.user_id row = User.id current_user
       /\ Appointment.therapist_id row = AppointmentCreate.therapist_id appointment
       /\ Appointment.status row = py "scheduled"
       /\ (Appointment.google_calendar_event_id row = None
           /\ Appointment.last_calendar_sync row = None
           \/ exists event_id data,
                AppointmentCreate.sync_with_calendar appointment = Some true
                /\ enabled = true
                /\ fst (create_event data) = Return (Some event_id)
                /\ event_id ≠ []
                /\ Appointment.google_calendar_event_id row = Some event_id
                /\ Appointment.last_calendar_sync row = Some synced).
Proof.
  intros Hkeys. unfold create_appointment. run.
  destruct (first _ (users (db w))) as [therapist|] eqn:Htherapist; simpl;
    [right|by left].
  destruct (default false (AppointmentCreate.sync_with_calendar appointment)
            && enabled) eqn:Hsync; simpl.
  2:{ eexists. split; [reflexivity|]. split; [done|]. simpl.
      do 10 (split; [reflexivity|]). by left. }
  apply andb_true_iff in Hsync as [Hrequested Henabled].
  destruct (AppointmentCreate.sync_with_calendar appointment) as [[|]|] eqn:Hflag;
    try discriminate.
  match goal with |- context [create_event ?d] =>
    set (data := d); destruct (create_event data) as [[[event_id|]|e] lines] eqn:Hevent
  end; simpl.
  - destruct (bool_decide (event_id = [])) eqn:Hempty; simpl.
    + eexists. split; [reflexivity|]. split; [done|]. simpl.
      do 10 (split; [reflexivity|]). by left.
    + apply bool_decide_eq_false_1 in Hempty.
      unfold commit_appointment. rewrite bool_decide_eq_false_2 by done. run.
      rewrite List.map_app. simpl. rewrite bool_decide_eq_true_2 by done.
      rewrite map_replace_absent
        by (eapply List.Forall_impl; [|exact Hkeys]; simpl; intros; lia).
      eexists. split; [reflexivity|]. split; [done|]. simpl.
      do 10 (split; [reflexivity|]). right. exists event_id, data.
      by rewrite Hevent.
  - eexists. split; [reflexivity|]. split; [done|]. simpl.
    do 10 (split; [reflexivity|]). by left.
  - eexists. split; [reflexivity|]. split; [done|]. simpl.
    do 10 (split; [reflexivity|]). by left.
Qed.

(** The handlers that write appointments keep the table well formed: from
    a table with unique keys, none beyond the sequence, each of
    [create_appointment], [update_appointment], [update_appointment_status]
    and [delete_appointment] leaves such a table, whatever the request and
    however it ends; and if every status was one of the five, it still
    is. *)
Theorem appointment_table_invariants (w : World) :
  appointments_wf (db w) ->
  (forall (service : Calendar) appointment current_user now synced,
     let w' := snd (create_appointment appointment current_user now synced w) in
     appointments_wf (db w')
     /\ (statuses_valid (db w) -> statuses_valid (db w')))
  /\ (forall appointment_id appointment_update current_user now,
        let w' := snd (update_appointment appointment_id appointment_update
                         current_user now w) in
        appointments_wf (db w')
        /\ (statuses_valid (db w) -> statuses_valid (db w')))
  /\ (forall appointment_id status_update current_user now,
        let w' := snd (update_appointment_status appointment_id status_update
                         current_user now w) in
        appointments_wf (db w')
        /\ (statuses_valid (db w) -> statuses_valid (db w')))
  /\ (forall appointment_id current_user now,
        let w' := snd (delete_appointment appointment_id current_user now w) in
        appointments_wf (db w')
        /\ (statuses_valid (db w) -> statuses_valid (db w'))).
Proof.
  intros Hwf. split; [|split; [|split]].
  - intros service appointment current_user now synced.
    destruct Hwf as [Hnd Hle].
    destruct (create_appointment_worlds appointment current_user now synced w Hle)
      as [(_ & Hdb & _)|(row & _ & _ & Happs & Hseq & _ & _ & _ & _ & Hid & _ & _
                         & Hstatus & _)]; simpl.
    + rewrite Hdb. by split.
    + unfold appointments_wf, statuses_valid. rewrite Happs, Hseq. split; [split|].
      * rewrite fmap_app. apply list.NoDup_app. split; [done|]. split.
        -- intros k Hk Hlast. apply list_elem_of_fmap in Hk as (a & -> & Ha).
           apply list_elem_of_singleton in Hlast.
           rewrite List.Forall_forall in Hle. apply list_elem_of_In in Ha.
           specialize (Hle a Ha). simpl in Hle. lia.
        -- apply NoDup_singleton.
      * apply list.Forall_app. split.
        -- eapply List.Forall_impl; [|exact Hle]. simpl. intros. lia.
        -- apply Forall_singleton. lia.
      * intros Hvalid. apply list.Forall_app. split; [done|].
        apply Forall_singleton. rewrite Hstatus.
        apply (bool_decide_unpack _). by vm_compute.
  - intros appointment_id appointment_update current_user now.
    destruct (update_appointment_worlds appointment_id appointment_update
                current_user now w) as [->|(a & Hfound & ->)]; [by split|].
    destruct (commit_appointment_keeps a (assign_update a appointment_update)
                appointment_id now w Hfound eq_refl) as (Hk & Hs & _).
    split; [by apply Hk|]. intros Hvalid. apply Hs; [|done].
    apply first_Some in Hfound as [Hin _].
    unfold statuses_valid in Hvalid. rewrite List.Forall_forall in Hvalid.
    apply (Hvalid a). by apply list_elem_of_In.
  - intros appointment_id status_update current_user now.
    destruct (update_appointment_status_worlds appointment_id status_update
                current_user now w) as [->|(a & s & Hfound & Hs & ->)]; [by split|].
    destruct (commit_appointment_keeps a (set_status a s) appointment_id now w
                Hfound eq_refl) as (Hk & Hv & _).
    split; [by apply Hk|]. intros Hvalid. by apply Hv.
  - intros appointment_id current_user now.
    destruct (delete_appointment_worlds appointment_id current_user now w)
      as [->|(a & Hfound & ->)]; [by split|].
    destruct (commit_appointment_keeps a (set_status a (py "cancelled"))
                appointment_id now w Hfound eq_refl) as (Hk & Hv & _).
    split; [by apply Hk|]. intros Hvalid. apply Hv; [|done].
    apply (bool_decide_unpack _). by vm_compute.
Qed.

Lemma assign_update_nothing (a : Appointment.t) (u : AppointmentUpdate.t) :
  AppointmentUpdate.therapist_id u = None ->
  AppointmentUpdate.appointment_datetime u = None ->
  AppointmentUpdate.duration_minutes u = None ->
  AppointmentUpdate.appointment_type u = None ->
  AppointmentUpdate.location u = None ->
  AppointmentUpdate.notes u = None ->
  AppointmentUpdate.sync_with_calendar u = None ->
  assign_update a u = a.
Proof.
  intros H1 H2 H3 H4 H5 H6 H7. unfold assign_update.
  rewrite H1, H2, H3, H4, H5, H6, H7. by destruct a.
Qed.

Section Changes.
Variables (appointment_id : Z) (current_user : User.t) (w : World)
  (appointment : Appointment.t).
Hypothesis Hfound :
  first (fun a => bool_decide (Appointment.id a = appointment_id))
        (appointments (db w)) = Some appointment.
Hypothesis Hparty : party current_user appointment.

(** Cancellation is not final: after [delete_appointment], a status update
    by the same party brings the appointment back to [scheduled], with the
    patient, provider, time, notes and calendar event it had. *)
Theorem cancelled_appointment_revived (now later : datetime) :
  exists w1 w2 cancelled revived,
    snd (delete_appointment appointment_id current_user now w) = w1
    /\ first (fun a => bool_decide (Appointment.id a = appointment_id))
             (appointments (db w1)) = Some cancelled
    /\ Appointment.status cancelled = py "cancelled"
    /\ update_appointment_status appointment_id
         {[ py "status" := PStr (py "scheduled") ]} current_user later w1
       = (Return (list_to_map
                    [(py "message", PStr (py "Status updated successfully"));
                     (py "status", PStr (py "scheduled"))]), w2)
    /\ first (fun a => bool_decide (Appointment.id a = appointment_id))
             (appointments (db w2)) = Some revived
    /\ Appointment.status revived = py "scheduled"
    /\ Appointment.user_id revived = Appointment.user_id appointment
    /\ Appointment.therapist_id revived = Appointment.therapist_id appointment
    /\ Appointment.appointment_datetime revived
       = Appointment.appointment_datetime appointment
    /\ Appointment.notes revived = Appointment.notes appointment
    /\ Appointment.google_calendar_event_id revived
       = Appointment.google_calendar_event_id appointment.
Proof.
  destruct (first_key _ _ _ _ Hfound) as [Hid Hfound'].
  destruct (delete_appointment_run appointment_id current_user now w appointment
              Hfound Hparty) as (cancelled & w1 & Hdelete & Hcommit).
  destruct (commit_appointment_effect appointment
              (set_status appointment (py "cancelled")) now w Hfound' eq_refl)
    as (cancelled' & w1' & Hcommit' & Hcancelled & Hfound1 & _).
  rewrite Hcommit in Hcommit'. injection Hcommit' as <- <-.
  rewrite Hid in Hfound1.
  assert (Appointment.status cancelled = py "cancelled"
          /\ Appointment.id cancelled = appointment_id
          /\ Appointment.user_id cancelled = Appointment.user_id appointment
          /\ Appointment.therapist_id cancelled = Appointment.therapist_id appointment
          /\ Appointment.appointment_datetime cancelled
             = Appointment.appointment_datetime appointment
          /\ Appointment.notes cancelled = Appointment.notes appointment
          /\ Appointment.google_calendar_event_id cancelled
             = Appointment.google_calendar_event_id appointment)
    as (Hs & Hi & Hu & Ht & Hd & Hn & He).
  { destruct Hcancelled as [(Hsame & -> & _)|[_ ->]]; [|done].
    by rewrite <- Hsame at 1. }
  assert (party current_user cancelled) as Hparty1
    by (unfold party in *; by rewrite Hu, Ht).
  destruct (update_appointment_status_run appointment_id current_user later w1
              cancelled Hfound1 Hparty1 (py "scheduled")
              {[ py "status" := PStr (py "scheduled") ]})
    as (revived & w2 & Hupdate & Hcommit2).
  { apply lookup_singleton_eq. }
  { apply (bool_decide_unpack _). by vm_compute. }
  destruct (first_key _ _ _ _ Hfound1) as [_ Hfound1'].
  destruct (commit_appointment_effect cancelled
              (set_status cancelled (py "scheduled")) later w1 Hfound1' eq_refl)
    as (revived' & w2' & Hcommit2' & Hrevived & Hfound2 & _).
  rewrite Hcommit2 in Hcommit2'. injection Hcommit2' as <- <-.
  rewrite Hi in Hfound2.
  exists w1, w2, cancelled, revived.
  split; [by rewrite Hdelete|]. split; [done|]. split; [done|].
  split; [done|]. split; [done|].
  destruct Hrevived as [(Hsame & -> & _)|[_ ->]]; simpl.
  - rewrite <- Hsame at 1. simpl. by rewrite Hu, Ht, Hd, Hn, He.
  - by rewrite Hu, Ht, Hd, Hn, He.
Qed.


(** [update_appointment] stores the provider the body names without
    checking the role, unlike [create_appointment]: whatever stored user is
    named, therapist or not, may access the appointment from then on, and
    nobody else may but its patient and admins. *)
Theorem update_appointment_reassigns_access (appointment_update : AppointmentUpdate.t)
    (now : datetime) (provider : User.t) :
  provider ∈ users (db w) ->
  AppointmentUpdate.therapist_id appointment_update = Some (User.id provider) ->
  let d' := db (snd (update_appointment appointment_id appointment_update
                       current_user now w)) in
  can_access_appointment provider appointment_id d' = true
  /\ forall other : User.t,
       can_access_appointment other appointment_id d' = true
       <-> User.role other = py "admin"
           \/ Appointment.user_id appointment = User.id other
           \/ User.id provider = User.id other.
Proof.
  intros _ Hnew d'. subst d'.
  set (therapist_id := User.id provider) in *.
  assert (forall other : User.t,
            can_access_appointment other appointment_id
              (db (snd (update_appointment appointment_id appointment_update
                          current_user now w))) = true
            <-> User.role other = py "admin"
                \/ Appointment.user_id appointment = User.id other
                \/ therapist_id = User.id other) as Haccess;
    [|split; [apply Haccess; right; by right|exact Haccess]].
  intros other.
  destruct (first_key _ _ _ _ Hfound) as [Hid Hfound'].
  rewrite (update_appointment_run _ _ _ _ _ Hfound Hparty).
  destruct (commit_appointment_effect appointment
              (assign_update appointment appointment_update) now w Hfound' eq_refl)
    as (stored & w' & -> & Hstored & Hfound1 & _).
  simpl. rewrite Hid in Hfound1.
  assert (Appointment.user_id stored = Appointment.user_id appointment
          /\ Appointment.therapist_id stored = therapist_id) as [Hu Ht].
  { assert (stored = assign_update appointment appointment_update
            \/ stored = touch (assign_update appointment appointment_update) now)
      as [->| ->]
      by (destruct Hstored as [(Hsame & -> & _)|[_ ->]];
          [left; by rewrite Hsame | by right]);
      simpl; by rewrite Hnew. }
  unfold can_access_appointment. rewrite Hfound1, Hu, Ht.
  destruct (decide (User.role other = py "admin")) as [Ha|Ha];
    [rewrite (bool_decide_eq_true_2 _ Ha); tauto|].
  rewrite (bool_decide_eq_false_2 _ Ha).
  destruct (decide (Appointment.user_id appointment = User.id other)) as [Hp|Hp];
    [rewrite (bool_decide_eq_true_2 _ Hp); simpl; tauto|].
  rewrite (bool_decide_eq_false_2 _ Hp).
  destruct (decide (therapist_id = User.id other)) as [Hq|Hq];
    [rewrite (bool_decide_eq_true_2 _ Hq); simpl; tauto|].
  rewrite (bool_decide_eq_false_2 _ Hq). simpl. split; [done|tauto].
Qed.

End Changes.

(** ** Booking *)

Lemma first_app_l {A} (p : A -> bool) (l k : list A) (a : A) :
  first p l = Some a -> first p (l ++ k) = Some a.
Proof.
  unfold first. induction l as [|r l IH]; [done|].
  simpl. destruct (p r); auto.
Qed.

Lemma first_app_r {A} (p : A -> bool) (l k : list A) :
  first p l = None -> first p (l ++ k) = first p k.
Proof.
  unfold first. induction l as [|r l IH]; [done|].
  simpl. destruct (p r); [done|auto].
Qed.

Section Booking.
Context `{Calendar}.
Variables (appointment : AppointmentCreate.t) (current_user : User.t)
  (now synced : datetime) (w : World).

(** Only a user whose role is exactly [therapist] can be booked: when no
    stored user has the requested key with that role (a physician or a
    health coach has not), the request is answered 404 and nothing is
    stored. *)
Theorem create_appointment_requires_therapist_role :
  (forall u, u ∈ users (db w) ->
             User.id u = AppointmentCreate.therapist_id appointment ->
             User.role u ≠ py "therapist") ->
  create_appointment appointment current_user now synced w
  = (Raise (HTTPException 404 (py "Therapist not found")),
     {| db := db w;
        log := log w ++ [(INFO, [Lit "Creating appointment for user: ";
                                 Val (PStr (User.username current_user))])] |}).
Proof.
  intros Hnone. unfold create_appointment. run.
  replace (first _ (users (db w))) with (@None User.t); [done|].
  symmetry. apply first_None. intros u Hin. apply andb_false_iff.
  destruct (decide (User.id u = AppointmentCreate.therapist_id appointment))
    as [Hid|Hid]; [right|left]; apply bool_decide_eq_false_2; auto.
Qed.

(** Booking then reading: from a well-formed table, a booking with an
    existing therapist stores the appointment under a fresh key, with the
    requester as patient, so that [get_appointment] returns it to the
    requester and every appointment stored before is still found under its
    key. *)
Theorem created_appointment_is_readable (therapist : User.t) :
  appointments_wf (db w) ->
  first (fun u => bool_decide (User.id u = AppointmentCreate.therapist_id appointment)
                  && bool_decide (User.role u = py "therapist"))
        (users (db w)) = Some therapist ->
  exists row w',
    create_appointment appointment current_user now synced w = (Return row, w')
    /\ Appointment.user_id row = User.id current_user
    /\ (forall a, a ∈ appointments (db w) -> Appointment.id a ≠ Appointment.id row)
    /\ get_appointment (Appointment.id row) current_user w' = (Return row, w')
    /\ (forall k a,
          first (fun r => bool_decide (Appointment.id r = k)) (appointments (db w))
          = Some a ->
          first (fun r => bool_decide (Appointment.id r = k)) (appointments (db w'))
          = Some a).
Proof.
  intros [Hnd Hle] Htherapist.
  destruct (create_appointment_worlds appointment current_user now synced w Hle)
    as [(_ & _ & Hnone)|(row & Hrun & _ & Happs & _ & _ & _ & _ & _ & Hid & Huser & _)];
    [by rewrite Htherapist in Hnone|].
  destruct (create_appointment appointment current_user now synced w)
    as [o w'] eqn:Hcreate. simpl in *. subst o.
  exists row, w'. split; [done|]. split; [done|].
  assert (forall a, a ∈ appointments (db w) -> Appointment.id a ≠ Appointment.id row)
    as Hfresh.
  { intros a Ha. rewrite List.Forall_forall in Hle. apply list_elem_of_In in Ha.
    specialize (Hle a Ha). simpl in Hle. lia. }
  split; [done|].
  assert (forall k a,
    first (fun r => bool_decide (Appointment.id r = k)) (appointments (db w))
    = Some a ->
    first (fun r => bool_decide (Appointment.id r = k)) (appointments (db w'))
    = Some a) as Hkept.
  { intros k a Hfound. rewrite Happs. by apply first_app_l. }
  split; [|done].
  assert (first (fun r => bool_decide (Appointment.id r = Appointment.id row))
                (appointments (db w')) = Some row) as Hfound.
  { rewrite Happs, first_app_r.
    - simpl. by rewrite bool_decide_eq_true_2.
    - apply first_None. intros a Ha. apply bool_decide_eq_false_2. by apply Hfresh. }
  unfold get_appointment. run. rewrite Hfound.
  rewrite (can_access_appointment_party _ _ _ Hfound).
  rewrite bool_decide_eq_true_2; [done|]. by left.
Qed.

(** When sync is requested, the service is enabled and [create_event]
    answers an event id, the stored appointment carries that id and the
    time of the sync, and [updated_at] moves to that time. *)
Theorem create_appointment_synced (therapist : User.t) (event_id : str) :
  Forall (fun a => Appointment.id a <= appointments_seq (db w))
         (appointments (db w)) ->
  first (fun u => bool_decide (User.id u = AppointmentCreate.therapist_id appointment)
                  && bool_decide (User.role u = py "therapist"))
        (users (db w)) = Some therapist ->
  AppointmentCreate.sync_with_calendar appointment = Some true ->
  enabled = true ->
  (forall data, fst (create_event data) = Return (Some event_id)) ->
  event_id ≠ [] ->
  exists row,
    fst (create_appointment appointment current_user now synced w) = Return row
    /\ appointments (db (snd (create_appointment appointment current_user now
                                synced w)))
       = appointments (db w) ++ [row]
    /\ Appointment.google_calendar_event_id row = Some event_id
    /\ Appointment.last_calendar_sync row = Some synced
    /\ Appointment.updated_at row = Some synced
    /\ Appointment.created_at row = Some now.
Proof.
  intros Hkeys Htherapist Hsync Henabled Hevent Hid.
  unfold create_appointment. run. rewrite Htherapist, Hsync, Henabled. simpl.
  match goal with |- context [create_event ?d] =>
    specialize (Hevent d); destruct (create_event d) as [o lines]
  end.
  simpl in Hevent. subst o. simpl.
  rewrite (bool_decide_eq_false_2 _ Hid). simpl.
  unfold commit_appointment. rewrite bool_decide_eq_false_2 by done. run.
  rewrite List.map_app. simpl. rewrite bool_decide_eq_true_2 by done.
  rewrite map_replace_absent
    by (eapply List.Forall_impl; [|exact Hkeys]; simpl; intros; lia).
  eexists. split; [reflexivity|]. by repeat split.
Qed.

End Booking.

(** ** Roles *)

Lemma first_map_replace_user (key : Z) (row : User.t) (rows : list User.t) (k : Z) :
  User.id row = key ->
  first (fun u => bool_decide (User.id u = k))
        (List.map (fun r => if bool_decide (User.id r = key) then row else r) rows)
  = (fun r => if bool_decide (User.id r = key) then row else r)
      <$> first (fun u => bool_decide (User.id u = k)) rows.
Proof.
  intros Hrow. induction rows as [|r rows IH]; [done|].
  simpl. destruct (decide (User.id r = key)) as [Hr|Hr].
  - rewrite (bool_decide_eq_true_2 _ Hr).
    replace (User.id row) with (User.id r) by congruence.
    case_bool_decide as Hk; [|apply IH].
    simpl. by rewrite bool_decide_eq_true_2.
  - rewrite (bool_decide_eq_false_2 _ Hr).
    case_bool_decide as Hk; [|apply IH].
    simpl. by rewrite bool_decide_eq_false_2.
Qed.

Lemma map_set_role_projections (key : Z) (target : User.t) (role : str)
    (rows : list User.t) :
  User.id target = key ->
  (forall r, r ∈ rows -> User.id r = key -> r = target) ->
  let rows' := List.map (fun r => if bool_decide (User.id r = key)
                                  then set_role target role else r) rows in
  User.id <$> rows' = User.id <$> rows
  /\ User.username <$> rows' = User.username <$> rows
  /\ User.email <$> rows' = User.email <$> rows.
Proof.
  intros Hid Hunique rows'. subst rows'.
  split; [|split];
    (induction rows as [|r rows IH]; [done|]; simpl; f_equal;
     [case_bool_decide as Hr; [|done];
      assert (r = target) as -> by (apply Hunique; [by left|done]); done
     |apply IH; intros r' Hr' Hk; apply Hunique; [by right|done]]).
Qed.

(** A holder of [users.manage_roles] who names an existing user and one
    of the six roles gets the success payload, and the row of that key
    then carries the new role and otherwise what it had; the rows of other
    keys and the appointments are untouched.  The holder may name itself,
    and a row made admin holds every permission from then on. *)
Theorem update_user_role_spec (user_id : Z) (role_data : gmap str pyval)
    (current_user target : User.t) (role : str) (w : World) :
  has_permission current_user (py "users.manage_roles") (db w) = true ->
  first (fun u => bool_decide (User.id u = user_id)) (users (db w)) = Some target ->
  role_data !! py "role" = Some (PStr role) ->
  role ∈ valid_roles ->
  exists w',
    update_user_role user_id role_data current_user w
    = (Return (list_to_map
                 [(py "message", PStr (py "Role updated successfully"));
                  (py "user_id", PInt user_id);
                  (py "new_role", PStr role)]), w')
    /\ first (fun u => bool_decide (User.id u = user_id)) (users (db w'))
       = Some (set_role target role)
    /\ (forall other, other ≠ user_id ->
          first (fun u => bool_decide (User.id u = other)) (users (db w'))
          = first (fun u => bool_decide (User.id u = other)) (users (db w)))
    /\ appointments (db w') = appointments (db w)
    /\ (role = py "admin" ->
        forall n, has_permission (set_role target role) n (db w') = true).
Proof.
  intros Hperm Hfound Hrole Hvalid.
  destruct (first_key _ _ _ _ Hfound) as [Hid _].
  unfold update_user_role. run. rewrite Hperm, Hfound, Hrole. simpl.
  rewrite (bool_decide_eq_true_2 _ Hvalid). simpl.
  unfold commit_user. simpl. case_bool_decide as Hsame; run.
  - eexists. split; [reflexivity|]. simpl. rewrite Hsame.
    split; [done|]. split; [done|]. split; [done|].
    intros -> n. unfold has_permission.
    rewrite <- Hsame. by rewrite bool_decide_eq_true_2.
  - eexists. split; [reflexivity|]. simpl.
    split.
    { rewrite first_map_replace_user by done. rewrite Hfound. simpl.
      by rewrite bool_decide_eq_true_2. }
    split.
    { intros other Hother. rewrite first_map_replace_user by done.
      destruct (first (fun u => bool_decide (User.id u = other)) (users (db w)))
        as [r|] eqn:Hr; [|done].
      apply first_Some in Hr as [_ Hr]. apply bool_decide_eq_true_1 in Hr.
      simpl. rewrite bool_decide_eq_false_2; [done|]. congruence. }
    split; [done|].
    intros -> n. unfold has_permission. by rewrite bool_decide_eq_true_2.
Qed.

(** A request answered with an error changes nothing: whenever one of
    these handlers raises, the world is what it was. *)
Theorem failed_requests_change_nothing (current_user : User.t) (w : World)
    (e : exn) :
  (forall user_id role_data,
     fst (update_user_role user_id role_data current_user w) = Raise e ->
     snd (update_user_role user_id role_data current_user w) = w)
  /\ (forall user_id status_data,
        fst (toggle_user_status user_id status_data current_user w) = Raise e ->
        snd (toggle_user_status user_id status_data current_user w) = w)
  /\ (forall appointment_id appointment_update now,
        fst (update_appointment appointment_id appointment_update current_user
               now w) = Raise e ->
        snd (update_appointment appointment_id appointment_update current_user
               now w) = w)
  /\ (forall appointment_id status_update now,
        fst (update_appointment_status appointment_id status_update
               current_user now w) = Raise e ->
        snd (update_appointment_status appointment_id status_update
               current_user now w) = w)
  /\ (forall appointment_id now,
        fst (delete_appointment appointment_id current_user now w) = Raise e ->
        snd (delete_appointment appointment_id current_user now w) = w).
Proof.
  repeat split.
  - intros user_id role_data. unfold update_user_role. run.
    destruct (has_permission _ _ _); simpl; [|done].
    destruct (first _ _); [|done].
    destruct (in_strs _ _); simpl; [|done].
    unfold commit_user. simpl. by case_bool_decide.
  - intros user_id status_data. unfold toggle_user_status.
    case_bool_decide; [done|]. run.
    destruct (first _ _); [|done]. simpl.
    case_bool_decide; [done|]. case_bool_decide; [done|].
    unfold commit_user, set_instance_attribute. simpl.
    by rewrite bool_decide_eq_true_2.
  - intros appointment_id appointment_update now.
    unfold update_appointment. run.
    destruct (first _ _); [|done]. destruct (_ && _ && _); [done|].
    unfold commit_appointment. by case_bool_decide.
  - intros appointment_id status_update now.
    unfold update_appointment_status. run.
    destruct (first _ _); [|done]. destruct (_ && _ && _); [done|].
    destruct (in_strs _ _); simpl; [|done].
    unfold commit_appointment. by case_bool_decide.
  - intros appointment_id now. unfold delete_appointment. run.
    destruct (first _ _); [|done]. destruct (_ && _ && _); [done|].
    unfold commit_appointment. by case_bool_decide.
Qed.

(** ** Registration and login *)

Lemma Forall_bounded_keys {A} (key : A -> Z) (bound : Z) (rows rows' : list A) :
  key <$> rows' = key <$> rows ->
  Forall (fun a => key a <= bound) rows ->
  Forall (fun a => key a <= bound) rows'.
Proof.
  revert rows. induction rows' as [|r rows' IH]; intros [|r0 rows] Hkeys Hle;
    try done.
  simpl in Hkeys. injection Hkeys as Hk Hkeys.
  inversion_clear Hle as [|? ? Hr0 Hrows]. constructor; [lia|by eapply IH].
Qed.

Section Accounts.
Context `{Unicode} `{Bcrypt}.

(** Every way [register_user] can end: an error with the database as it
    was, or the new row appended under the next key. *)
Lemma register_user_worlds (user : UserCreate.t) (salt : bytes) (now : datetime)
    (w : World) :
  let run := register_user user salt now w in
  ((exists e, fst run = Raise e) /\ db (snd run) = db w)
  \/ exists hashed,
       let row := {| User.id := users_seq (db w) + 1;
                     User.username := UserCreate.username user;
                     User.email := UserCreate.email user;
                     User.hashed_password := hashed;
                     User.role := UserCreate.role user;
                     User.created_at := Some now |} in
       fst run = Return row
       /\ auth.get_password_hash (UserCreate.password user) salt = Return hashed
       /\ first (fun u => bool_decide (User.username u = UserCreate.username user)
                          || bool_decide (User.email u = UserCreate.email user))
                (users (db w)) = None
       /\ users (db (snd run)) = users (db w) ++ [row]
       /\ users_seq (db (snd run)) = users_seq (db w) + 1
       /\ appointments (db (snd run)) = appointments (db w)
       /\ permissions (db (snd run)) = permissions (db w)
       /\ role_permissions (db (snd run)) = role_permissions (db w).
Proof.
  unfold register_user, tuple_truthy. run.
  destruct (auth.validate_password_strength _) as [[|] message]; simpl;
    [|left; eauto].
  destruct (first _ (users (db w))) eqn:Hfree; simpl; [left; eauto|].
  destruct (auth.get_password_hash _ salt) as [hashed|e] eqn:Hhash; simpl;
    [|left; eauto].
  right. exists hashed. by repeat split.
Qed.

(** A registration whose username or email is already stored is answered
    400, whatever else it holds, and stores nothing. *)
Theorem register_user_rejects_duplicates (user : UserCreate.t) (salt : bytes)
    (now : datetime) (w : World) (existing : User.t) :
  ~ weak_password (UserCreate.password user) ->
  existing ∈ users (db w) ->
  User.username existing = UserCreate.username user
  \/ User.email existing = UserCreate.email user ->
  fst (register_user user salt now w)
  = Raise (HTTPException 400 (py "Username or email already registered"))
  /\ db (snd (register_user user salt now w)) = db w.
Proof.
  intros Hstrong Hin Hsame. unfold register_user, tuple_truthy. run.
  rewrite (validate_password_strength_strong _ Hstrong). simpl.
  destruct (first _ (users (db w))) eqn:Hfree; [done|].
  rewrite first_None in Hfree. specialize (Hfree existing Hin).
  apply orb_false_iff in Hfree as [Hu He].
  apply bool_decide_eq_false_1 in Hu, He. tauto.
Qed.

(** The handlers that write users keep the table well formed: unique
    keys, usernames and emails, and no key beyond the sequence, are kept by
    [register_user], [update_user_role] and [toggle_user_status], whatever
    the request and however it ends. *)
Theorem user_table_invariants (w : World) :
  users_wf (db w) ->
  (forall user salt now, users_wf (db (snd (register_user user salt now w))))
  /\ (forall user_id role_data current_user,
        users_wf (db (snd (update_user_role user_id role_data current_user w))))
  /\ (forall user_id status_data current_user,
        users_wf (db (snd (toggle_user_status user_id status_data current_user w)))).
Proof.
  intros (Hids & Hnames & Hemails & Hle). split; [|split].
  - intros user salt now.
    destruct (register_user_worlds user salt now w)
      as [[_ ->]|(hashed & _ & _ & Hfree & Husers & Hseq & _)]; [done|].
    unfold users_wf. rewrite Husers, Hseq, !fmap_app. simpl.
    rewrite first_None in Hfree.
    assert (forall u, u ∈ users (db w) ->
              User.username u ≠ UserCreate.username user
              /\ User.email u ≠ UserCreate.email user
              /\ User.id u ≠ users_seq (db w) + 1) as Hfresh.
    { intros u Hu. specialize (Hfree u Hu).
      apply orb_false_iff in Hfree as [Hn He].
      apply bool_decide_eq_false_1 in Hn, He. split; [done|]. split; [done|].
      rewrite List.Forall_forall in Hle. apply list_elem_of_In in Hu.
      specialize (Hle u Hu). simpl in Hle. lia. }
    repeat split.
    + apply list.NoDup_app. split; [done|]. split; [|apply NoDup_singleton].
      intros k Hk Hlast. apply list_elem_of_fmap in Hk as (u & -> & Hu).
      apply list_elem_of_singleton in Hlast.
      destruct (Hfresh u Hu) as (? & ? & ?). congruence.
    + apply list.NoDup_app. split; [done|]. split; [|apply NoDup_singleton].
      intros k Hk Hlast. apply list_elem_of_fmap in Hk as (u & -> & Hu).
      apply list_elem_of_singleton in Hlast.
      destruct (Hfresh u Hu) as (? & ? & ?). congruence.
    + apply list.NoDup_app. split; [done|]. split; [|apply NoDup_singleton].
      intros k Hk Hlast. apply list_elem_of_fmap in Hk as (u & -> & Hu).
      apply list_elem_of_singleton in Hlast.
      destruct (Hfresh u Hu) as (? & ? & ?). congruence.
    + apply list.Forall_app. split.
      * eapply List.Forall_impl; [|exact Hle]. simpl. intros. lia.
      * apply Forall_singleton. simpl. lia.
  - intros user_id role_data current_user. unfold update_user_role. run.
    destruct (has_permission _ _ _); simpl; [|done].
    destruct (first _ (users (db w))) as [target|] eqn:Hfound; [|done].
    destruct (in_strs _ _); simpl; [|done].
    unfold commit_user. simpl. case_bool_decide as Hsame; run; [done|].
    destruct (first_key _ _ _ _ Hfound) as [Hid Hfound'].
    apply first_Some in Hfound as [Hin _].
    destruct (map_set_role_projections user_id target
                (str_of (default PNone (role_data !! py "role")))
                (users (db w)) Hid) as (Hi & Hn & He).
    { intros r Hr Hk.
      apply list_elem_of_lookup in Hr as [i Hi], Hin as [j Hj].
      assert (i = j) as <-; [|congruence].
      eapply NoDup_lookup; [exact Hids| |];
        rewrite list_lookup_fmap; [by rewrite Hi | by rewrite Hj; simpl; congruence]. }
    unfold users_wf. simpl. rewrite Hid, Hi, Hn, He.
    split; [done|]. split; [done|]. split; [done|].
    exact (Forall_bounded_keys User.id _ _ _ Hi Hle).
  - intros user_id status_data current_user. unfold toggle_user_status.
    case_bool_decide; [done|]. run.
    destruct (first _ _); [|done]. simpl.
    case_bool_decide; [done|]. case_bool_decide; [done|].
    unfold commit_user, set_instance_attribute. simpl.
    by rewrite bool_decide_eq_true_2.
Qed.

End Accounts.

Section Sessions.
Context `{Unicode} `{Bcrypt} `{Hs256} (SECRET_KEY : str).

(** Every way [login] can end. *)
Lemma login_worlds (form_username form_password : str) (now : datetime)
    (w : World) :
  let run := login SECRET_KEY form_username form_password now w in
  db (snd run) = db w
  /\ ((exists user,
         first (fun u => bool_decide (User.username u = form_username))
               (users (db w)) = Some user
         /\ fst (auth.verify_password form_password
                   (auth.IsStr (User.hashed_password user))) = Return true
         /\ fst run
            = Return {| access_token :=
                          auth.create_access_token SECRET_KEY (login_claims user)
                                                   None now;
                        token_type := py "bearer" |})
      \/ fst run = Raise (HTTPException 401 (py "Incorrect username or password"))).
Proof.
  unfold login. run.
  destruct (first _ (users (db w))) as [user|] eqn:Hfound; simpl;
    [|split; [done|by right]].
  unfold auth.verify_password.
  destruct (auth.verify_password_try _ _) as [[|]|e] eqn:Hv; simpl;
    (split; [done|]); [left|by right|by right].
  exists user. by rewrite Hv.
Qed.

(** [login] answers a token or the 401 and nothing else, and writes
    nothing.  In particular a stored hash that [bcrypt.checkpw] cannot read,
    or that cannot be encoded, gives the same 401 as a wrong password: the
    error is printed and the attempt is logged as failed. *)
Theorem login_spec (form_username form_password : str) (now : datetime)
    (w : World) :
  let run := login SECRET_KEY form_username form_password now w in
  db (snd run) = db w
  /\ (forall e, fst run = Raise e ->
        e = HTTPException 401 (py "Incorrect username or password"))
  /\ (forall token, fst run = Return token ->
        token_type token = py "bearer"
        /\ exists user,
             user ∈ users (db w) /\ User.username user = form_username
             /\ auth.verify_password_try form_password
                  (auth.IsStr (User.hashed_password user)) = Return true)
  /\ (forall user e,
        first (fun u => bool_decide (User.username u = form_username))
              (users (db w)) = Some user ->
        auth.verify_password_try form_password
          (auth.IsStr (User.hashed_password user)) = Raise e ->
        run = (Raise (HTTPException 401 (py "Incorrect username or password")),
               {| db := db w;
                  log := log w
                    ++ [(INFO, [Lit "Login attempt: "; Val (PStr form_username)])]
                    ++ [(PRINT, [Lit "Password verification error: "; Exc e])]
                    ++ [(WARNING, [Lit "Failed login attempt: ";
                                   Val (PStr form_username)])] |})).
Proof.
  intros run.
  destruct (login_worlds form_username form_password now w)
    as [Hdb [(user & Hfound & Hverified & Hrun)|Hrun]]; fold run in Hdb, Hrun.
  - split; [done|]. split; [intros e; by rewrite Hrun|]. split.
    + intros token. rewrite Hrun. intros [= <-]. split; [done|].
      exists user. apply first_Some in Hfound as [Hin Hname].
      apply bool_decide_eq_true_1 in Hname. split; [done|]. split; [done|].
      unfold auth.verify_password in Hverified.
      by destruct (auth.verify_password_try _ _) as [[|]|].
    + intros user' e Hfound' Hraise. rewrite Hfound in Hfound'.
      injection Hfound' as <-. unfold auth.verify_password in Hverified.
      by rewrite Hraise in Hverified.
  - split; [done|]. split; [intros e; rewrite Hrun; by intros [= <-]|]. split.
    + intros token. by rewrite Hrun.
    + intros user e Hfound Hraise. subst run. unfold login. run.
      rewrite Hfound. simpl. unfold auth.verify_password. rewrite Hraise. simpl.
      by rewrite <- !app_assoc.
Qed.

(** The token of a successful [login] resolves, through the last whole
    second of its thirty minutes, to the stored user of that name. *)
Theorem login_then_get_current_user (form_username form_password : str)
    (issued now : datetime) (w : World) (token : Token) :
  fst (login SECRET_KEY form_username form_password issued w) = Return token ->
  jwt.timegm now
  <= jwt.timegm (issued + minutes auth.ACCESS_TOKEN_EXPIRE_MINUTES) ->
  exists user,
    user ∈ users (db w) /\ User.username user = form_username
    /\ auth.get_current_user SECRET_KEY (access_token token) now
         (snd (login SECRET_KEY form_username form_password issued w))
       = (Return user, snd (login SECRET_KEY form_username form_password issued w)).
Proof.
  intros Hlogin Hnow.
  destruct (login_worlds form_username form_password issued w)
    as [Hdb [(user & Hfound & _ & Hrun)|Hrun]]; [|by rewrite Hrun in Hlogin].
  rewrite Hrun in Hlogin. injection Hlogin as <-. simpl.
  exists user. destruct (first_Some _ _ _ Hfound) as [Hin Hname].
  apply bool_decide_eq_true_1 in Hname. split; [done|]. split; [done|].
  rewrite get_current_user_login_token by (rewrite Hdb; by rewrite Hname).
  simpl. by rewrite (proj2 (Z.ltb_ge _ _)).
Qed.



End Sessions.

Section Enrolment.
Context `{Unicode} `{Bcrypt} `{Hs256} (SECRET_KEY : str).
Variables (user : UserCreate.t) (salt : bytes) (now : datetime) (w : World).

Hypothesis Hstrong : ~ weak_password (UserCreate.password user).
Hypothesis Hfree :
  forall u, u ∈ users (db w) ->
            User.username u ≠ UserCreate.username user
            /\ User.email u ≠ UserCreate.email user.

Lemma register_user_run (hashed : str) :
  auth.get_password_hash (UserCreate.password user) salt = Return hashed ->
  let row := {| User.id := users_seq (db w) + 1;
                User.username := UserCreate.username user;
                User.email := UserCreate.email user;
                User.hashed_password := hashed;
                User.role := UserCreate.role user;
                User.created_at := Some now |} in
  fst (register_user user salt now w) = Return row
  /\ users (db (snd (register_user user salt now w))) = users (db w) ++ [row]
  /\ appointments (db (snd (register_user user salt now w)))
     = appointments (db w)
  /\ first (fun u => bool_decide (User.username u = UserCreate.username user))
           (users (db (snd (register_user user salt now w)))) = Some row.
Proof.
  intros Hhash row.
  assert (first (fun u => bool_decide (User.username u = UserCreate.username user)
                          || bool_decide (User.email u = UserCreate.email user))
                (users (db w)) = None) as Hnone.
  { apply first_None. intros u Hu. destruct (Hfree u Hu) as [Hn He].
    by rewrite !bool_decide_eq_false_2. }
  assert (first (fun u => bool_decide (User.username u = UserCreate.username user))
                (users (db w)) = None) as Hname.
  { apply first_None. intros u Hu. destruct (Hfree u Hu) as [Hn He].
    by rewrite bool_decide_eq_false_2. }
  unfold register_user, tuple_truthy. run.
  rewrite (validate_password_strength_strong _ Hstrong). simpl.
  rewrite Hnone, Hhash. simpl. fold row.
  split; [done|]. split; [done|]. split; [done|].
  rewrite first_app_r by done. unfold first. simpl.
  by rewrite bool_decide_eq_true_2.
Qed.

(** The role of a registration is stored as requested, without a check:
    whoever registers with the role [admin] holds every permission, passes
    [require_admin], and may read every stored user's data and every stored
    appointment. *)
Theorem register_user_role_unchecked (hashed : str) :
  auth.get_password_hash (UserCreate.password user) salt = Return hashed ->
  exists row,
    fst (register_user user salt now w) = Return row
    /\ row ∈ users (db (snd (register_user user salt now w)))
    /\ User.role row = UserCreate.role user
    /\ (UserCreate.role user = py "admin" ->
        let d := db (snd (register_user user salt now w)) in
        (forall permission_name, has_permission row permission_name d = true)
        /\ (forall module_name, can_access_module row module_name d = true)
        /\ (forall target_user_id, can_access_user_data row target_user_id d = true)
        /\ (forall a, a ∈ appointments (db w) ->
                      can_access_appointment row (Appointment.id a) d = true)
        /\ (forall A (func : M A) w', require_admin func (Some row) w' = func w')).
Proof.
  intros Hhash. destruct (register_user_run hashed Hhash)
    as (Hrun & Husers & Happs & _).
  eexists. split; [exact Hrun|]. split.
  { rewrite Husers. apply elem_of_app. right. by apply list_elem_of_singleton. }
  split; [done|]. intros Hadmin d. subst d. repeat split.
  - intros n. unfold has_permission. simpl. by rewrite bool_decide_eq_true_2.
  - intros m. unfold can_access_module. simpl. by rewrite bool_decide_eq_true_2.
  - intros t. unfold can_access_user_data. simpl. by rewrite bool_decide_eq_true_2.
  - intros a Ha. unfold can_access_appointment. rewrite Happs.
    match goal with |- context [first ?f ?l] =>
      pose proof (first_None f l) as Hnone; destruct (first f l) eqn:Hf
    end.
    + simpl. by rewrite bool_decide_eq_true_2.
    + specialize (proj1 Hnone eq_refl a Ha) as Hk. simpl in Hk.
      by apply bool_decide_eq_false_1 in Hk.
  - intros A func w'. unfold require_admin. simpl.
    rewrite bool_decide_eq_false_2; [done|]. intros Hne. by apply Hne.
Qed.

(** Registration, login and token resolution compose: when bcrypt checks
    what it hashed, the user who registered logs in with the same password
    at any later instant, and the token resolves to the registered row
    through the last whole second of its thirty minutes.  The password
    reaches bcrypt through the same truncation on both paths. *)
Theorem register_then_login (pb hashed : bytes) (later : datetime) :
  utf8_encode (UserCreate.password user) = Return pb ->
  hashpw (auth.truncate_72 pb) salt = Return hashed ->
  is_ascii hashed ->
  checkpw (auth.truncate_72 pb) hashed = Return true ->
  exists row token,
    let registered := snd (register_user user salt now w) in
    let session :=
      login SECRET_KEY (UserCreate.username user) (UserCreate.password user)
            later registered in
    fst (register_user user salt now w) = Return row
    /\ fst session = Return token
    /\ forall instant,
         jwt.timegm instant
         <= jwt.timegm (later + minutes auth.ACCESS_TOKEN_EXPIRE_MINUTES) ->
         auth.get_current_user SECRET_KEY (access_token token) instant (snd session)
         = (Return row, snd session).
Proof.
  intros Hpb Hhashed Hascii Hcheck.
  assert (auth.get_password_hash (UserCreate.password user) salt = Return hashed)
    as Hhash.
  { unfold auth.get_password_hash. rewrite Hpb. simpl. rewrite Hhashed. simpl.
    by apply utf8_decode_ascii. }
  destruct (register_user_run hashed Hhash) as (Hrun & _ & _ & Hfound).
  assert (fst (auth.verify_password (UserCreate.password user)
                 (auth.IsStr hashed)) = Return true) as Hverified.
  { unfold auth.verify_password, auth.verify_password_try. rewrite Hpb. simpl.
    rewrite (utf8_encode_ascii _ Hascii). simpl. by rewrite Hcheck. }
  eexists. eexists. simpl. split; [exact Hrun|]. split.
  { apply (login_issues_token SECRET_KEY _ _ later _ _ Hfound). exact Hverified. }
  intros instant Hinstant.
  destruct (login_worlds SECRET_KEY (UserCreate.username user)
              (UserCreate.password user) later
              (snd (register_user user salt now w))) as [Hdb _].
  simpl. rewrite get_current_user_login_token by (rewrite Hdb; exact Hfound).
  simpl. by rewrite (proj2 (Z.ltb_ge _ _)).
Qed.

End Enrolment.

(** ** Validators and guards *)

(** [validate_username] accepts exactly the names of 3 to 50 characters
    that start with a letter and hold only letters, digits, underscores and
    hyphens; every refusal carries a message. *)
Theorem validate_username_accepts_iff `{Unicode} (username : str) :
  (fst (auth.validate_username username) = true
   <-> (3 <= length username <= 50)%nat
       /\ (exists c rest, username = c :: rest /\ isalpha c = true)
       /\ (forall c, c ∈ username ->
                     isalnum c = true \/ c = 95%N \/ c = 45%N))
  /\ (fst (auth.validate_username username) = true ->
      snd (auth.validate_username username) = [])
  /\ (fst (auth.validate_username username) = false ->
      snd (auth.validate_username username) ≠ []).
Proof.
  unfold auth.validate_username.
  case_bool_decide as H3; [split; [split; [done|lia]|done]|].
  case_bool_decide as H50; [split; [split; [done|lia]|done]|].
  destruct username as [|c rest]; [simpl in H3; lia|].
  destruct (isalpha c) eqn:Hc; cbn [negb]; cbv iota;
    [|split; [split; [done|]|done];
      intros (_ & (c' & rest' & [= <- <-] & Hc') & _); congruence].
  match goal with |- context [forallb ?f ?l] =>
    destruct (forallb f l) eqn:Hall
  end; cbn [negb]; cbv iota.
  - split; [|done]. split; [intros _|done].
    split; [lia|]. split; [by exists c, rest|].
    intros c' Hc'. rewrite forallb_forall in Hall.
    apply list_elem_of_In in Hc'. specialize (Hall c' Hc').
    apply orb_true_iff in Hall as [Ha|Hb]; [by left|right].
    apply bool_decide_eq_true_1 in Hb.
    apply elem_of_cons in Hb as [->|Hb]; [by left|].
    apply list_elem_of_singleton in Hb as ->. by right.
  - split; [split; [done|]|done]. intros (_ & _ & Hchars).
    assert (forallb (fun c => isalnum c || bool_decide (c ∈ py "_-")) (c :: rest)
            = true) as Hall'; [|congruence].
    apply forallb_forall. intros c' Hc'. apply list_elem_of_In in Hc'.
    destruct (Hchars c' Hc') as [Ha|[->| ->]]; [by rewrite Ha|..];
      apply orb_true_iff; right; apply bool_decide_eq_true_2.
    + by left.
    + right. by left.
Qed.

(** The three decorators either hand over to the endpoint, whose outcome
    and world are then the guard's, or refuse with 401 or 403 before the
    endpoint runs, leaving the world as it was.  [require_permission] hands
    over exactly to the callers [has_permission] accepts, and an admin
    passes it for every permission. *)
Theorem guards_spec {A} (func : M A) (current_user : option User.t)
    (has_db : bool) (permission_name : str) (allowed_roles : list str)
    (w : World) :
  let refused (run : outcome A * World) :=
    snd run = w
    /\ exists status_code detail,
         fst run = Raise (HTTPException status_code detail)
         /\ (status_code = 401 \/ status_code = 403) in
  (require_admin func current_user w = func w
   \/ refused (require_admin func current_user w))
  /\ (require_role allowed_roles func current_user w = func w
      \/ refused (require_role allowed_roles func current_user w))
  /\ (require_permission permission_name func current_user has_db w = func w
      \/ refused (require_permission permission_name func current_user has_db w))
  /\ (forall user,
        current_user = Some user -> has_db = true ->
        (has_permission user permission_name (db w) = true ->
         require_permission permission_name func current_user has_db w = func w)
        /\ (has_permission user permission_name (db w) = false ->
            refused (require_permission permission_name func current_user has_db w))
        /\ (User.role user = py "admin" ->
            require_permission permission_name func current_user has_db w = func w
            /\ require_admin func current_user w = func w)
        /\ (User.role user ∈ allowed_roles ->
            require_role allowed_roles func current_user w = func w)
        /\ (User.role user ∉ allowed_roles ->
            refused (require_role allowed_roles func current_user w))).
Proof.
  intros refused. subst refused. cbv beta.
  unfold require_admin, require_role, require_permission, bind, get_db, raise.
  assert (forall status_code detail,
            status_code = 401 \/ status_code = 403 ->
            (@Raise A (HTTPException status_code detail), w).2 = w
            /\ exists status_code' detail',
                 (@Raise A (HTTPException status_code detail), w).1
                 = Raise (HTTPException status_code' detail')
                 /\ (status_code' = 401 \/ status_code' = 403)) as Hrefused.
  { intros status_code detail Hcode. split; [done|]. by exists status_code, detail. }
  split; [|split; [|split]].
  - destruct current_user as [user|]; [|right; apply Hrefused; by left].
    case_bool_decide; [right; apply Hrefused; by right|by left].
  - destruct current_user as [user|]; [|right; apply Hrefused; by left].
    case_bool_decide; [right; apply Hrefused; by right|by left].
  - destruct current_user as [user|]; [|right; apply Hrefused; by left].
    destruct has_db; cbn [negb]; [|right; apply Hrefused; by left].
    destruct (has_permission _ _ _); cbn [negb];
      [by left|right; apply Hrefused; by right].
  - intros user -> ->. cbn [negb]. split; [by intros ->|]. split.
    { intros ->. apply Hrefused. by right. }
    split.
    { intros Hadmin. unfold has_permission.
      rewrite bool_decide_eq_true_2 by done. cbn [negb].
      rewrite bool_decide_eq_false_2; [done|]. intros Hne. by apply Hne. }
    split.
    + intros Hin. rewrite bool_decide_eq_false_2; [done|]. intros Hout.
      by apply Hout.
    + intros Hout. rewrite bool_decide_eq_true_2 by done. apply Hrefused. by right.
Qed.

(** ** Therapists *)

(** [get_therapists] and [create_appointment] agree on who is a therapist:
    a booking is accepted exactly when the list of therapists holds an
    entry with the requested key, whatever the calendar does. *)
Theorem listed_therapists_are_bookable `{Calendar}
    (appointment : AppointmentCreate.t) (current_user : User.t)
    (now synced : datetime) (w : World) :
  exists listed,
    get_therapists current_user w = (Return listed, w)
    /\ ((exists entry,
           entry ∈ listed
           /\ entry !! py "id"
              = Some (PInt (AppointmentCreate.therapist_id appointment)))
        <-> exists row,
              fst (create_appointment appointment current_user now synced w)
              = Return row).
Proof.
  unfold get_therapists. run. eexists. split; [reflexivity|].
  assert (is_Some (first (fun u => bool_decide
                                     (User.id u = AppointmentCreate.therapist_id appointment)
                                   && bool_decide (User.role u = py "therapist"))
                         (users (db w)))
          <-> exists row,
                fst (create_appointment appointment current_user now synced w)
                = Return row) as <-.
  { unfold create_appointment. run.
    destruct (first _ (users (db w))) as [therapist|]; simpl;
      [|split; [by intros [? ?]|by intros [? ?]]].
    split; [intros _|by eauto].
    destruct (default false (AppointmentCreate.sync_with_calendar appointment)
              && enabled); simpl; [|by eexists].
    destruct (create_event _) as [[[event_id|]|e] lines]; simpl; try by eexists.
    destruct (bool_decide (event_id = [])); simpl; [by eexists|].
    unfold commit_appointment. case_bool_decide; run; by eexists. }
  rewrite first_is_Some. split.
  - intros (entry & Hentry & Hid).
    apply list_elem_of_fmap in Hentry as (therapist & -> & Htherapist).
    apply elem_of_filter_bool in Htherapist as [Hin Hrole].
    rewrite lookup_insert_eq in Hid. injection Hid as Hid.
    exists therapist. split; [done|]. by rewrite Hrole, bool_decide_eq_true_2.
  - intros (therapist & Hin & Hcheck).
    apply andb_true_iff in Hcheck as [Hid Hrole].
    apply bool_decide_eq_true_1 in Hid.
    eexists. split.
    + apply list_elem_of_fmap. exists therapist. split; [reflexivity|].
      by apply elem_of_filter_bool.
    + rewrite lookup_insert_eq. by rewrite Hid.
Qed.

(** ** The properties with hypotheses, at the hospital *)

Module Scenarios.
Import Instances Fixtures.

(** Decide a closed, decidable proposition by evaluation. *)
Ltac evaluate := apply (bool_decide_unpack _); vm_compute; exact I.

(** Split the membership in a literal list into its cases. *)
Ltac each_row H :=
  repeat (apply elem_of_cons in H as [->|H]); [..|by apply elem_of_nil in H].

Lemma strong_password : ~ @weak_password ascii_tables (py "Passw0rd1").
Proof.
  intros [Hlen|[Hlen|[Hup|[Hlow|Hdig]]]].
  - vm_compute in Hlen. lia.
  - vm_compute in Hlen. lia.
  - specialize (Hup 80%N ltac:(evaluate)). discriminate.
  - specialize (Hlow 97%N ltac:(evaluate)). discriminate.
  - specialize (Hdig 48%N ltac:(evaluate)). discriminate.
Defined.

Lemma hospital_users_wf : users_wf hospital.
Proof.
  repeat split; [evaluate|evaluate|evaluate|].
  repeat (constructor; [simpl; lia|]). constructor.
Defined.

Lemma hospital_appointments_wf : appointments_wf hospital.
Proof.
  split; [evaluate|]. repeat (constructor; [simpl; lia|]). constructor.
Defined.

Lemma erin_is_new (name : string) :
  name = "erin"%string ->
  forall u, u ∈ users hospital ->
            User.username u ≠ py name /\ User.email u ≠ py name ++ py "@example.com".
Proof.
  intros -> u Hu. simpl in Hu. each_row Hu; by split.
Defined.

(** For the patient alice, the module [appointments] is accessible and its
    permission is granted. *)
Lemma can_access_module_iff_some_permission_witness :
  can_access_module (person 1 "alice" "patient") (py "appointments") hospital = true
  <-> exists p, p ∈ permissions hospital
                /\ Permission.module p = py "appointments"
                /\ has_permission (person 1 "alice" "patient")
                     (Permission.name p) hospital = true.
Proof.
  apply can_access_module_iff_some_permission; [done|evaluate].
Defined.

(** Alice lists her appointments. *)
Lemma get_my_appointments_spec_witness :
  exists mine,
    get_my_appointments (person 1 "alice" "patient") hospital_world
    = (Return mine, hospital_world)
    /\ (forall a, a ∈ mine ->
          get_appointment (Appointment.id a) (person 1 "alice" "patient")
            hospital_world = (Return a, hospital_world)).
Proof.
  destruct (get_my_appointments_spec (person 1 "alice" "patient") hospital_world
              eq_refl ltac:(evaluate)) as (mine & Hrun & _ & Hread).
  by exists mine.
Defined.

(** With an empty catalog alice is refused her list and reads her visit. *)
Lemma own_appointment_read_without_permission_witness :
  get_my_appointments (person 1 "alice" "patient") ungranted_world
  = (Raise (HTTPException 403 (py "Insufficient permissions to view appointments")),
     ungranted_world)
  /\ get_appointment 7 (person 1 "alice" "patient") ungranted_world
     = (Return visit, ungranted_world).
Proof.
  exact (own_appointment_read_without_permission (person 1 "alice" "patient")
           visit ungranted_world eq_refl eq_refl eq_refl).
Defined.

(** The hospital's table stays well formed when alice's visit is moved. *)
Lemma appointment_table_invariants_witness :
  appointments_wf
    (db (snd (update_appointment 7 (reassign 5) (person 1 "alice" "patient") 30
                hospital_world))).
Proof.
  destruct (appointment_table_invariants hospital_world hospital_appointments_wf)
    as (_ & Hupdate & _).
  apply Hupdate.
Defined.

(** Alice cancels her visit and brings it back. *)
Lemma cancelled_appointment_revived_witness :
  exists w2 revived,
    update_appointment_status 7 {[ py "status" := PStr (py "scheduled") ]}
      (person 1 "alice" "patient") 40
      (snd (delete_appointment 7 (person 1 "alice" "patient") 30 hospital_world))
    = (Return (list_to_map
                 [(py "message", PStr (py "Status updated successfully"));
                  (py "status", PStr (py "scheduled"))]), w2)
    /\ first (fun a => bool_decide (Appointment.id a = 7)) (appointments (db w2))
       = Some revived
    /\ Appointment.status revived = py "scheduled"
    /\ Appointment.notes revived = Some (py "first visit").
Proof.
  destruct (cancelled_appointment_revived 7 (person 1 "alice" "patient")
              hospital_world visit eq_refl (or_introl eq_refl) 30 40)
    as (w1 & w2 & cancelled & revived & <- & _ & _ & Hrun & Hrow & Hstatus
        & _ & _ & _ & Hnotes & _).
  by exists w2, revived.
Defined.


(** After that move the physician dave may access the visit and the
    therapist bob may not. *)
Lemma update_appointment_reassigns_access_witness :
  let d' := db (snd (update_appointment 7 (reassign 5)
                       (person 1 "alice" "patient") 30 hospital_world)) in
  can_access_appointment (person 5 "dave" "physician") 7 d' = true
  /\ can_access_appointment (person 2 "bob" "therapist") 7 d' ≠ true.
Proof.
  intros d'. subst d'.
  assert (person 5 "dave" "physician" ∈ users (db hospital_world)) as Hstored
    by (simpl; do 4 right; left).
  destruct (update_appointment_reassigns_access 7 (person 1 "alice" "patient")
              hospital_world visit eq_refl (or_introl eq_refl) (reassign 5) 30
              (person 5 "dave" "physician") Hstored eq_refl) as [Hdave Haccess].
  split; [exact Hdave|].
  intros Hbob. apply Haccess in Hbob as [Hbob|[Hbob|Hbob]]; discriminate.
Defined.

(** The physician dave cannot be booked. *)
Lemma create_appointment_requires_therapist_role_witness :
  fst (@create_appointment working_calendar (booking_with 5)
         (person 1 "alice" "patient") 20 21 hospital_world)
  = Raise (HTTPException 404 (py "Therapist not found")).
Proof.
  rewrite (@create_appointment_requires_therapist_role working_calendar
             (booking_with 5) (person 1 "alice" "patient") 20 21 hospital_world);
    [done|].
  intros u Hu Hid. simpl in Hu. each_row Hu; done.
Defined.

(** Alice books the therapist bob and reads the booking. *)
Lemma created_appointment_is_readable_witness :
  exists row w',
    @create_appointment working_calendar booking (person 1 "alice" "patient")
      20 21 hospital_world = (Return row, w')
    /\ get_appointment (Appointment.id row) (person 1 "alice" "patient") w'
       = (Return row, w').
Proof.
  destruct (@created_appointment_is_readable working_calendar booking
              (person 1 "alice" "patient") 20 21 hospital_world
              (person 2 "bob" "therapist") hospital_appointments_wf eq_refl)
    as (row & w' & Hrun & _ & _ & Hread & _).
  by exists row, w'.
Defined.

(** The booking carries the event of the working calendar. *)
Lemma create_appointment_synced_witness :
  exists row,
    fst (@create_appointment working_calendar booking (person 1 "alice" "patient")
           20 21 hospital_world) = Return row
    /\ Appointment.google_calendar_event_id row = Some (py "evt42")
    /\ Appointment.last_calendar_sync row = Some 21.
Proof.
  destruct (@create_appointment_synced working_calendar booking
              (person 1 "alice" "patient") 20 21 hospital_world
              (person 2 "bob" "therapist") (py "evt42")
              (proj2 hospital_appointments_wf) eq_refl eq_refl eq_refl
              (fun _ => eq_refl) ltac:(done))
    as (row & Hrun & _ & Hevent & Hsync & _).
  by exists row.
Defined.

(** The physician dave, who holds [users.manage_roles], makes alice an
    admin. *)
Lemma update_user_role_spec_witness :
  exists w',
    update_user_role 1 {[ py "role" := PStr (py "admin") ]}
      (person 5 "dave" "physician") hospital_world
    = (Return (list_to_map
                 [(py "message", PStr (py "Role updated successfully"));
                  (py "user_id", PInt 1);
                  (py "new_role", PStr (py "admin"))]), w')
    /\ forall n, has_permission (set_role (person 1 "alice" "patient") (py "admin"))
                   n (db w') = true.
Proof.
  destruct (update_user_role_spec 1 {[ py "role" := PStr (py "admin") ]}
              (person 5 "dave" "physician") (person 1 "alice" "patient")
              (py "admin") hospital_world eq_refl eq_refl
              (lookup_singleton_eq _ _) ltac:(evaluate))
    as (w' & Hrun & _ & _ & _ & Hadmin).
  exists w'. split; [done|]. by apply Hadmin.
Defined.

(** A second alice is refused. *)
Lemma register_user_rejects_duplicates_witness :
  fst (@register_user ascii_tables hex_bcrypt (applicant "alice" "patient") [] 5
         hospital_world)
  = Raise (HTTPException 400 (py "Username or email already registered")).
Proof.
  apply (@register_user_rejects_duplicates ascii_tables hex_bcrypt
           (applicant "alice" "patient") [] 5 hospital_world
           (person 1 "alice" "patient") strong_password).
  - by left.
  - by left.
Defined.

(** The hospital's users stay well formed when erin registers. *)
Lemma user_table_invariants_witness :
  users_wf (db (snd (@register_user ascii_tables hex_bcrypt newcomer [] 5
                       hospital_world))).
Proof.
  destruct (@user_table_invariants ascii_tables hex_bcrypt hospital_world
              hospital_users_wf) as (Hregister & _).
  apply Hregister.
Defined.

(** Erin logs in, and her token resolves in the last second of its thirty
    minutes. *)
Lemma login_then_get_current_user_witness :
  let session :=
    @login hex_bcrypt constant_hs256 (py "secret") (py "erin") (py "Passw0rd1") 0
      enrolled_world in
  exists user,
    User.username user = py "erin"
    /\ @auth.get_current_user constant_hs256 (py "secret")
         (@auth.create_access_token constant_hs256 (py "secret") (login_claims erin)
            None 0)
         1800999999 (snd session)
       = (Return user, snd session).
Proof.
  intros session. subst session.
  destruct (@login_then_get_current_user hex_bcrypt constant_hs256 (py "secret")
              (py "erin") (py "Passw0rd1") 0 1800999999 enrolled_world
              {| access_token :=
                   @auth.create_access_token constant_hs256 (py "secret")
                     (login_claims erin) None 0;
                 token_type := py "bearer" |})
    as (user & _ & Hname & Hrun); [reflexivity|by vm_compute|].
  by exists user.
Defined.

(** Erin registers as admin and holds every permission. *)
Lemma register_user_role_unchecked_witness :
  exists row,
    fst (@register_user ascii_tables hex_bcrypt newcomer [] 5 hospital_world)
    = Return row
    /\ User.role row = py "admin"
    /\ forall n,
         has_permission row n
           (db (snd (@register_user ascii_tables hex_bcrypt newcomer [] 5
                       hospital_world))) = true.
Proof.
  destruct (@register_user_role_unchecked ascii_tables hex_bcrypt newcomer [] 5
              hospital_world strong_password (erin_is_new "erin" eq_refl)
              (py "$hex$506173737730726431") eq_refl)
    as (row & Hrun & _ & Hrole & Hadmin).
  exists row. split; [done|]. split; [done|].
  by destruct (Hadmin eq_refl) as [Hall _].
Defined.

(** Erin registers, logs in an hour later, and her token resolves to her
    row. *)
Lemma register_then_login_witness :
  exists row token,
    fst (@register_user ascii_tables hex_bcrypt newcomer [] 5 hospital_world)
    = Return row
    /\ fst (@login hex_bcrypt constant_hs256 (py "secret") (py "erin")
              (py "Passw0rd1") 3600000000
              (snd (@register_user ascii_tables hex_bcrypt newcomer [] 5
                      hospital_world))) = Return token
    /\ fst (@auth.get_current_user constant_hs256 (py "secret")
              (access_token token) 3700000000
              (snd (@login hex_bcrypt constant_hs256 (py "secret") (py "erin")
                      (py "Passw0rd1") 3600000000
                      (snd (@register_user ascii_tables hex_bcrypt newcomer [] 5
                              hospital_world))))) = Return row.
Proof.
  destruct (@register_then_login ascii_tables hex_bcrypt constant_hs256
              (py "secret") newcomer [] 5 hospital_world strong_password
              (erin_is_new "erin" eq_refl) (py "Passw0rd1")
              (py "$hex$506173737730726431") 3600000000 eq_refl eq_refl)
    as (row & token & Hrun & Hlogin & Hresolve).
  - repeat (constructor; [reflexivity|]). constructor.
  - reflexivity.
  - exists row, token. split; [done|]. split; [done|].
    by rewrite Hresolve by (by vm_compute).
Defined.

End Scenarios.
